(** * check50: the command-line front end ([check50/__main__.py])

    A shallow embedding of the option resolver [validate_args], the remote
    poller [await_results], the process-wide error hook [excepthook] and the
    invalid-slug reporter [raise_invalid_slug], together with the properties
    the specification states about them.

    Python values are modelled as the code uses them: flags are [bool],
    strings are [string], lists are [list] with index lookup, decoded JSON
    is the inductive [json], and an exception is a value of [exn] returned on
    the left of a sum.  Calls to the logging, HTTP and terminal libraries are
    recorded as events in the order the code issues them. *)

From stdpp Require Import base tactics option list sets strings.
From Stdlib Require Import ZArith Lia Ascii.

Set Warnings "-register-all,-clear-no-such-hyp".

Open Scope Z_scope.
Open Scope string_scope.
Open Scope list_scope.

(** ** Python primitives *)

Module Py.

(** A decoded JSON document, as [res.json()] returns it.  An object is
    the item list of the decoded [dict] (its keys are distinct); numbers
    are the integral ones. *)
Inductive json : Type :=
| JNull
| JBool (b : bool)
| JNum (n : Z)
| JStr (s : string)
| JArr (items : list json)
| JObj (fields : list (string * json)).

(** Exceptions the modelled functions can raise. *)
Inductive exn : Type :=
| RemoteCheckError (remote_json : json)
| InternalError (msg : string)
| KeyError (key : string)
| TypeError
| AttributeError.

Definition result (A : Type) : Type := exn + A.
Definition ok {A} (a : A) : result A := inr a.
Definition raise {A} (e : exn) : result A := inl e.
Definition bind {A B} (m : result A) (k : A -> result B) : result B :=
  match m with
  | inl e => inl e
  | inr a => k a
  end.

(** [str.upper] on ASCII letters.  Strings are byte strings: on text
    with characters outside ASCII [str.upper] can differ (it follows the
    Unicode case mapping), and statements that depend on the spelling of
    such text are made for ASCII strings. *)
Definition upper_ascii (c : ascii) : ascii :=
  let n := nat_of_ascii c in
  if (Nat.leb 97 n && Nat.leb n 122)%bool then ascii_of_nat (n - 32) else c.

Fixpoint upper (s : string) : string :=
  match s with
  | EmptyString => EmptyString
  | String c s' => String (upper_ascii c) (upper s')
  end.

(** [sep.join(parts)]. *)
Fixpoint join (sep : string) (parts : list string) : string :=
  match parts with
  | [] => ""
  | [p] => p
  | p :: rest => p +:+ sep +:+ join sep rest
  end.

(** [x in l] for a list of strings. *)
Definition contains (x : string) (l : list string) : bool :=
  bool_decide (x ∈ l).

(** [l.remove(x)]: drops the first element equal to [x]. *)
Fixpoint remove (x : string) (l : list string) : list string :=
  match l with
  | [] => []
  | y :: t => if decide (x = y) then t else y :: remove x t
  end.

(** [d[key]] on a decoded document: only a [dict] can be subscripted by
    a string. *)
Fixpoint lookup_field (key : string) (fields : list (string * json))
  : option json :=
  match fields with
  | [] => None
  | (k, v) :: rest => if decide (k = key) then Some v else lookup_field key rest
  end.

Definition getitem (d : json) (key : string) : result json :=
  match d with
  | JObj fields =>
      match lookup_field key fields with
      | Some v => ok v
      | None => raise (KeyError key)
      end
  | _ => raise TypeError
  end.

(** Truth value of a decoded document ([not d] is its negation). *)
Definition truthy (d : json) : bool :=
  match d with
  | JNull => false
  | JBool b => b
  | JNum n => negb (n =? 0)%Z
  | JStr s => negb (bool_decide (s = ""))
  | JArr items => match items with [] => false | _ => true end
  | JObj fields => match fields with [] => false | _ => true end
  end.

(** [needle in s] for two strings. *)
Fixpoint is_substring (needle s : string) : bool :=
  if String.prefix needle s then true
  else match s with
       | EmptyString => false
       | String _ s' => is_substring needle s'
       end.

Definition is_str (key : string) (d : json) : bool :=
  match d with
  | JStr s => bool_decide (s = key)
  | _ => false
  end.

(** [key in d]: a key of a [dict], an element of a [list], a substring
    of a [str]; the other values are not iterable. *)
Definition json_contains (key : string) (d : json) : result bool :=
  match d with
  | JObj fields => ok (bool_decide (is_Some (lookup_field key fields)))
  | JArr items => ok (existsb (is_str key) items)
  | JStr s => ok (is_substring key s)
  | _ => raise TypeError
  end.

(** The line feed of a ["\n"] escape. *)
Definition nl : string := String "010" "".

Definition is_none (d : json) : bool :=
  match d with
  | JNull => true
  | _ => false
  end.

End Py.

Notation "'try' x := m 'in' k" := (Py.bind m (fun x => k))
  (at level 10, x name, m at level 100, k at level 200).

(** ** Log levels *)

Inductive LogLevel : Type := DEBUG | INFO | WARNING | ERROR.

(** The [IntEnum] values, those of the [logging] module. *)
Definition level_value (l : LogLevel) : Z :=
  match l with
  | DEBUG => 10
  | INFO => 20
  | WARNING => 30
  | ERROR => 40
  end.

Definition level_name (l : LogLevel) : string :=
  match l with
  | DEBUG => "DEBUG"
  | INFO => "INFO"
  | WARNING => "WARNING"
  | ERROR => "ERROR"
  end.

(** [LogLevel.__members__[key]]. *)
Definition LogLevel_members (key : string) : Py.result LogLevel :=
  if decide (key = "DEBUG") then Py.ok DEBUG
  else if decide (key = "INFO") then Py.ok INFO
  else if decide (key = "WARNING") then Py.ok WARNING
  else if decide (key = "ERROR") then Py.ok ERROR
  else Py.raise (Py.KeyError key).

(** ** The argument namespace *)

(** [args.log_level] holds the option's string until [validate_args]
    replaces it by the enum member. *)
Inductive log_level_field : Type :=
| LevelName (s : string)
| Level (l : LogLevel).

Record Namespace : Type := mkNamespace {
  slug : string;
  dev : bool;
  offline : bool;
  local : bool;
  output : list string;
  target : option (list string);
  output_file : option string;
  verbose : bool;
  log_level : log_level_field;
  ansi_log : bool;
  no_download_checks : bool;
  no_install_dependencies : bool;
  (** not an option of the parser: the attribute exists only once
      developer mode has set it *)
  ansi_output : option bool
}.

Definition set_offline (v : bool) (a : Namespace) : Namespace :=
  mkNamespace (slug a) (dev a) v (local a) (output a) (target a)
    (output_file a) (verbose a) (log_level a) (ansi_log a)
    (no_download_checks a) (no_install_dependencies a) (ansi_output a).

Definition set_verbose (v : bool) (a : Namespace) : Namespace :=
  mkNamespace (slug a) (dev a) (offline a) (local a) (output a) (target a)
    (output_file a) v (log_level a) (ansi_log a)
    (no_download_checks a) (no_install_dependencies a) (ansi_output a).

Definition set_ansi_output (v : bool) (a : Namespace) : Namespace :=
  mkNamespace (slug a) (dev a) (offline a) (local a) (output a) (target a)
    (output_file a) (verbose a) (log_level a) (ansi_log a)
    (no_download_checks a) (no_install_dependencies a) (Some v).

Definition set_no_install_dependencies (v : bool) (a : Namespace) : Namespace :=
  mkNamespace (slug a) (dev a) (offline a) (local a) (output a) (target a)
    (output_file a) (verbose a) (log_level a) (ansi_log a)
    (no_download_checks a) v (ansi_output a).

Definition set_no_download_checks (v : bool) (a : Namespace) : Namespace :=
  mkNamespace (slug a) (dev a) (offline a) (local a) (output a) (target a)
    (output_file a) (verbose a) (log_level a) (ansi_log a)
    v (no_install_dependencies a) (ansi_output a).

Definition set_local (v : bool) (a : Namespace) : Namespace :=
  mkNamespace (slug a) (dev a) (offline a) v (output a) (target a)
    (output_file a) (verbose a) (log_level a) (ansi_log a)
    (no_download_checks a) (no_install_dependencies a) (ansi_output a).

Definition set_log_level (v : log_level_field) (a : Namespace) : Namespace :=
  mkNamespace (slug a) (dev a) (offline a) (local a) (output a) (target a)
    (output_file a) (verbose a) v (ansi_log a)
    (no_download_checks a) (no_install_dependencies a) (ansi_output a).

Definition set_output (v : list string) (a : Namespace) : Namespace :=
  mkNamespace (slug a) (dev a) (offline a) (local a) v (target a)
    (output_file a) (verbose a) (log_level a) (ansi_log a)
    (no_download_checks a) (no_install_dependencies a) (ansi_output a).

Definition set_ansi_log (v : bool) (a : Namespace) : Namespace :=
  mkNamespace (slug a) (dev a) (offline a) (local a) (output a) (target a)
    (output_file a) (verbose a) (log_level a) v
    (no_download_checks a) (no_install_dependencies a) (ansi_output a).

(** ** [validate_args] *)

(** What [validate_args] does to the logging subsystem. *)
Inductive log_event : Type :=
| SetupLogging (level : LogLevel) (progress_bar_disabled : bool)
| LogWarning (msg : string).

(** [args.log_level.upper()]: a string has the method, an enum member
    has not. *)
Definition log_level_upper (f : log_level_field) : Py.result string :=
  match f with
  | LevelName s => Py.ok (Py.upper s)
  | Level _ => Py.raise Py.AttributeError
  end.

(** [setup_logging(level)]: both loggers get the level and a handler; the
    progress bar is disabled below WARNING. *)
Definition setup_logging (level : LogLevel) : log_event :=
  SetupLogging level (level_value level <? level_value WARNING)%Z.

(** The warning about options that mean nothing on a remote run. *)
Definition useless_args_warning (a : Namespace) : list log_event :=
  if local a then []
  else
    let useless_args :=
      (if no_download_checks a then ["--no-downloads-checks"] else [])
      ++ (if no_install_dependencies a then ["--no-install-dependencies"] else []) in
    match useless_args with
    | [] => []
    | _ => [LogWarning ("You should always use --local when using: "
                        +:+ Py.join ", " useless_args)]
    end.

Definition duplicate_warning (output : string) : log_event :=
  LogWarning ("Duplicate output format specified: " +:+ output).

(** One turn of the loop over [args.output]. *)
Definition filter_step (st : list string * list log_event) (output : string)
  : list string * list log_event :=
  let '(seen_output, log) := st in
  if Py.contains output seen_output
  then (seen_output, log ++ [duplicate_warning output])
  else (seen_output ++ [output], log).

Definition filter_duplicates (outputs : list string)
  : list string * list log_event :=
  foldl filter_step ([], []) outputs.

Definition ansi_log_step (level : LogLevel) (a : Namespace)
  : Namespace * list log_event :=
  if Py.contains "ansi" (output a) then
    if (level_value level <=? level_value INFO)%Z
    then (set_ansi_log true a, [])
    else (a, [])
  else if ansi_log a then
    (a, [LogWarning "--ansi-log has no effect when ansi is not among the output formats"])
  else (a, []).

Definition apply_dev (a : Namespace) : Namespace :=
  if dev a then
    let a := set_offline true a in
    let a := set_verbose true a in
    if Py.contains "ansi" (output a) then set_ansi_output true a else a
  else a.

Definition apply_offline (a : Namespace) : Namespace :=
  if offline a then
    let a := set_no_install_dependencies true a in
    let a := set_no_download_checks true a in
    set_local true a
  else a.

Definition validate_args (args : Namespace)
  : Py.result (Namespace * list log_event) :=
  let args := apply_dev args in
  let args := apply_offline args in
  try name := log_level_upper (log_level args) in
  try level := LogLevel_members name in
  let args := set_log_level (Level level) args in
  let log := [setup_logging level] in
  let log := log ++ useless_args_warning args in
  let '(seen_output, warnings) := filter_duplicates (output args) in
  let log := log ++ warnings in
  let args := set_output seen_output args in
  let '(args, warnings) := ansi_log_step level args in
  Py.ok (args, log ++ warnings).

(** The namespace the parser builds when only the slug is given. *)
Definition default_args (s : string) : Namespace :=
  mkNamespace s false false false ["ansi"; "html"] None None false
    (LevelName "WARNING") false false false None.

(** The same with [--dev]. *)
Definition dev_args (s : string) : Namespace :=
  mkNamespace s true false false ["ansi"; "html"] None None false
    (LevelName "WARNING") false false false None.

(** A raw option set, as the parser hands it over: the log level is still
    the option's string, one of the four names (the parser upper-cases it
    and checks the choice). *)
Definition raw_options (a : Namespace) : Prop :=
  exists l, log_level a = LevelName (level_name l).

(** ** [await_results] *)

(** A response of the results endpoint: its status code and its body as
    [res.json()] decodes it.  Failures of the transport or of the decoding
    are raised by the [requests] library and are outside this model. *)
Record Response : Type := mkResponse {
  status_code : Z;
  body : Py.json
}.

(** What the poller does to the outside world. *)
Inductive poll_event : Type :=
| Get (commit_hash slug : string)
| Sleep (seconds : Z).

(** How the [for] loop ends: by [break] with the last decoded body, by an
    exception, or by running through its range (the [else] branch). *)
Inductive loop_exit : Type :=
| Break (results : Py.json)
| Raised (e : Py.exn)
| Exhausted.

(** [res.status_code == 200 and results["received_at"] is not None] *)
Definition ready (res : Response) : Py.result bool :=
  if (status_code res =? 200)%Z then
    try received_at := Py.getitem (body res) "received_at" in
    Py.ok (negb (Py.is_none received_at))
  else Py.ok false.

(** The loop [for _i in range(pings)], from attempt [i] on with [n] attempts
    left; [server i] is the response to attempt number [i]. *)
Fixpoint poll (server : nat -> Response) (commit_hash slug : string)
    (sleep : Z) (n i : nat) (trace : list poll_event)
  : list poll_event * loop_exit :=
  match n with
  | O => (trace, Exhausted)
  | S n' =>
      let res := server i in
      let trace := trace ++ [Get commit_hash slug] in
      let results := body res in
      if negb (bool_decide (status_code res ∈ [404; 200]))
      then (trace, Raised (Py.RemoteCheckError results))
      else
        match ready res with
        | inl e => (trace, Raised e)
        | inr true => (trace, Break results)
        | inr false =>
            poll server commit_hash slug sleep n' (S i) (trace ++ [Sleep sleep])
        end
  end.

Definition timeout_message (commit_hash : string) : string :=
  "check50 is taking longer than normal!" +:+ Py.nl
  +:+ "See https://submit.cs50.io/check50/" +:+ commit_hash +:+ " for more detail".

(** The statements after the loop, on the body the loop stopped at. *)
Definition extract (results : Py.json) : Py.result (Py.json * Py.json) :=
  try check50 := Py.getitem results "check50" in
  if negb (Py.truthy check50) then Py.raise (Py.RemoteCheckError results)
  else
    try has_error := Py.json_contains "error" check50 in
    if has_error then Py.raise (Py.RemoteCheckError check50)
    else
      try tag_hash := Py.getitem results "tag_hash" in
      try slug := Py.getitem check50 "slug" in
      try res := Py.getitem check50 "results" in
      try version := Py.getitem check50 "version" in
      Py.ok (tag_hash,
             Py.JObj [("slug", slug); ("results", res); ("version", version)]).

Definition await_results_from (server : nat -> Response)
    (commit_hash slug : string) (pings sleep : Z)
  : list poll_event * Py.result (Py.json * Py.json) :=
  let '(trace, exit) :=
    poll server commit_hash slug sleep (Z.to_nat pings) 0%nat [] in
  match exit with
  | Break results => (trace, extract results)
  | Raised e => (trace, Py.raise e)
  | Exhausted => (trace, Py.raise (Py.InternalError (timeout_message commit_hash)))
  end.

(** [await_results(commit_hash, slug, pings=45, sleep=2)] *)
Definition await_results (server : nat -> Response) (commit_hash slug : string)
  : list poll_event * Py.result (Py.json * Py.json) :=
  await_results_from server commit_hash slug 45 2.

(** Number of queries sent. *)
Definition is_get (e : poll_event) : bool :=
  match e with
  | Get _ _ => true
  | Sleep _ => false
  end.

Definition attempts (trace : list poll_event) : nat :=
  length (filter (fun e => is_get e = true) trace).

(** ** [excepthook] *)

(** The uncaught exception, by what the hook reads of it: the outcome of
    each [issubclass] test on its class and the attributes it formats. *)
Record ExcInfo : Type := mkExcInfo {
  cls_name : string;
  is_internal_error : bool;
  is_lib50_error : bool;
  is_file_not_found : bool;
  is_keyboard_interrupt : bool;
  is_exception : bool;
  has_args : bool;
  exc_str : string;
  exc_filename : string;
  exc_traceback : list string;
  exc_payload : option Py.json
}.

(** The attributes [main] stores on the hook once the options are
    resolved.  [hook_outputs] is the list object [args.output] itself: the
    hook removes from it while it iterates over it. *)
Record HookState : Type := mkHookState {
  hook_verbose : bool;
  hook_outputs : list string;
  hook_output_file : option string;
  hook_slug : string
}.

Inductive hook_event : Type :=
| JsonDump (sink : option string) (slug type value : string)
    (traceback : list string) (data : Py.json) (version : string)
| CPrintStderr (msg : string)
| CPrintStdout (msg : string)
| PrintException
| PrintPayload (payload : Py.json).

Inductive hook_outcome : Type :=
| Exit (status : Z)
| Return.

(** What servicing one channel amounts to: events and on to the next
    channel, or the early [return]. *)
Inductive channel_result : Type :=
| Continue (events : list hook_event)
| LetGo.

(** [excepthook.output_file] counts when it is a non-empty path. *)
Definition json_sink (st : HookState) : option string :=
  match hook_output_file st with
  | Some f => if bool_decide (f = "") then None else Some f
  | None => None
  end.

Definition json_channel (version : string) (st : HookState) (exc : ExcInfo)
  : list hook_event :=
  [JsonDump (json_sink st) (hook_slug st) (cls_name exc) (exc_str exc)
     (exc_traceback exc)
     (match exc_payload exc with Some p => p | None => Py.JObj [] end)
     version].

Definition verbose_events (st : HookState) (exc : ExcInfo) : list hook_event :=
  if hook_verbose st then
    PrintException ::
      match exc_payload exc with
      | Some p => [PrintPayload p]
      | None => []
      end
  else [].

Definition terminal_channel (st : HookState) (exc : ExcInfo) : channel_result :=
  if ((is_internal_error exc || is_lib50_error exc) && has_args exc)%bool then
    Continue (CPrintStderr (exc_str exc) :: verbose_events st exc)
  else if is_file_not_found exc then
    Continue (CPrintStderr (exc_filename exc +:+ " not found") :: verbose_events st exc)
  else if is_keyboard_interrupt exc then
    Continue (CPrintStdout "check cancelled" :: verbose_events st exc)
  else if negb (is_exception exc) then
    LetGo
  else
    Continue (CPrintStderr "Sorry, something's wrong! Let sysadmins@cs50.harvard.edu know!"
              :: verbose_events st exc).

Definition service (version : string) (st : HookState) (exc : ExcInfo)
    (output : string) : channel_result :=
  if bool_decide (output = "json") then Continue (json_channel version st exc)
  else if (bool_decide (output = "ansi") || bool_decide (output = "html"))%bool
  then terminal_channel st exc
  else Continue [].

(** A run of the hook: the channels the loop variable took, the events,
    what is left in the shared list and how the hook ended. *)
Record HookRun : Type := mkHookRun {
  serviced : list string;
  emitted : list hook_event;
  remaining : list string;
  outcome : hook_outcome
}.

(** The loop [for output in excepthook.outputs], whose iterator is at
    index [i] of the list as it is now; [outputs.remove(output)] acts on
    that same list. *)
Fixpoint hook_loop (version : string) (st : HookState) (exc : ExcInfo)
    (fuel i : nat) (outputs taken : list string) (events : list hook_event)
  : option HookRun :=
  match fuel with
  | O => None
  | S fuel' =>
      match outputs !! i with
      | None => Some (mkHookRun taken events outputs (Exit 1))
      | Some output =>
          let outputs := Py.remove output outputs in
          let taken := taken ++ [output] in
          match service version st exc output with
          | LetGo => Some (mkHookRun taken events outputs Return)
          | Continue evs =>
              hook_loop version st exc fuel' (S i) outputs taken (events ++ evs)
          end
      end
  end.

Definition excepthook (version : string) (st : HookState) (exc : ExcInfo)
  : option HookRun :=
  hook_loop version st exc (S (length (hook_outputs st))) 0%nat
    (hook_outputs st) [] [].

(** ** [raise_invalid_slug] *)

Definition not_found_message (slug : string) : string :=
  "Could not find checks for " +:+ slug +:+ ".".

Definition offline_hint : string :=
  Py.nl +:+ "If you are confident the slug is correct and you have an internet connection,"
  +:+ " try running without --offline.".

(** [get_local_slugs slug] stands for
    [lib50.get_local_slugs("check50", similar_to=slug)]. *)
Definition raise_invalid_slug (get_local_slugs : string -> list string)
    (slug : string) (offline : bool) : Py.result Empty_set :=
  let msg := not_found_message slug in
  let similar_slugs := take 3 (get_local_slugs slug) in
  let msg :=
    match similar_slugs with
    | [] => msg
    | _ =>
        let msg := msg +:+ " Did you mean:" in
        let msg :=
          foldl (fun msg similar_slug => msg +:+ Py.nl +:+ "    " +:+ similar_slug)
            msg similar_slugs in
        msg +:+ Py.nl +:+ "Do refer back to the problem specification if unsure."
    end in
  let msg := if offline then msg +:+ offline_hint else msg in
  Py.raise (Py.InternalError msg).

(** ** Reference definitions used in the statements *)

(** The distinct values of a list in the order of their first occurrence:
    the head stays, and its later occurrences are dropped from what the tail
    yields. *)
Fixpoint first_occurrences (l : list string) : list string :=
  match l with
  | [] => []
  | x :: t => x :: filter (fun y => y ≠ x) (first_occurrences t)
  end.

#[global] Instance LogLevel_eq_dec : EqDecision LogLevel.
Proof. solve_decision. Defined.

#[global] Instance log_event_eq_dec : EqDecision log_event.
Proof. solve_decision. Defined.

(** How many times an event occurs in a log, a value in a list. *)
Definition occurrences {A} `{EqDecision A} (x : A) (l : list A) : nat :=
  length (filter (fun y => y = x) l).

(** The implication rules of the specification, on a resolved plan. *)
Definition dev_implies (p : Namespace) : Prop :=
  dev p = true -> offline p = true /\ verbose p = true.

Definition offline_implies (p : Namespace) : Prop :=
  offline p = true ->
  local p = true /\ no_download_checks p = true /\ no_install_dependencies p = true.

(** A log without any duplicate warning. *)
Definition no_duplicate_warning (log : list log_event) : Prop :=
  forall x, occurrences (duplicate_warning x) log = 0%nat.

(** The plan [validate_args] arrives at when the log level resolves to
    [l], field by field. *)
Definition resolved_plan (l : LogLevel) (a : Namespace) : Namespace :=
  let off := (dev a || offline a)%bool in
  mkNamespace (slug a) (dev a) off (off || local a)%bool
    (first_occurrences (output a)) (target a) (output_file a)
    (dev a || verbose a)%bool (Level l)
    (if (Py.contains "ansi" (output a) && (level_value l <=? level_value INFO)%Z)%bool
     then true else ansi_log a)
    (off || no_download_checks a)%bool
    (off || no_install_dependencies a)%bool
    (if (dev a && Py.contains "ansi" (output a))%bool then Some true
     else ansi_output a).

(** A response that is not ready: status 404, or status 200 with a null
    received timestamp. *)
Definition not_ready (res : Response) : Prop :=
  status_code res = 404
  \/ (status_code res = 200
      /\ Py.getitem (body res) "received_at" = Py.ok Py.JNull).

(** A ready response: status 200 and a received timestamp that is not
    null. *)
Definition ready_response (res : Response) : Prop :=
  status_code res = 200
  /\ exists t, Py.getitem (body res) "received_at" = Py.ok t /\ t <> Py.JNull.

(** The trace of [n] attempts that were all answered "not ready". *)
Fixpoint idle_rounds (commit_hash slug : string) (sleep : Z) (n : nat)
  : list poll_event :=
  match n with
  | O => []
  | S n' => Get commit_hash slug :: Sleep sleep :: idle_rounds commit_hash slug sleep n'
  end.

(** A body that carries everything [await_results] reads: a tag hash and a
    nested result that is an object without an error field, with its slug,
    results and version. *)
Definition complete_results (results tag_hash slug res version : Py.json) : Prop :=
  exists fields nested,
    results = Py.JObj fields
    /\ Py.lookup_field "check50" fields = Some (Py.JObj nested)
    /\ Py.lookup_field "tag_hash" fields = Some tag_hash
    /\ Py.lookup_field "error" nested = None
    /\ Py.lookup_field "slug" nested = Some slug
    /\ Py.lookup_field "results" nested = Some res
    /\ Py.lookup_field "version" nested = Some version.

(** Attempt number [k] (from 0) is made: it is within [pings] and every
    earlier response was "not ready". *)
Definition reached (server : nat -> Response) (pings : Z) (k : nat) : Prop :=
  Z.of_nat k < pings /\ forall j, (j < k)%nat -> not_ready (server j).

(** The body of a ready response is turned down, with [remote_json] as the
    error's payload: its nested result is there but empty (the whole body is
    reported), or ["error"] occurs in it (the nested result is reported). *)
Definition rejected (results remote_json : Py.json) : Prop :=
  exists check50,
    Py.getitem results "check50" = Py.ok check50
    /\ ((Py.truthy check50 = false /\ remote_json = results)
        \/ (Py.truthy check50 = true
            /\ Py.json_contains "error" check50 = Py.ok true
            /\ remote_json = check50)).

(** Ready bodies that lack something [await_results] reads: the nested
    result itself, or one of its fields. *)
Definition body_without_check50 : Py.json :=
  Py.JObj [("received_at", Py.JStr "2020-01-01T00:00:00Z");
           ("tag_hash", Py.JStr "f00d")].

Definition body_without_results : Py.json :=
  Py.JObj [("received_at", Py.JStr "2020-01-01T00:00:00Z");
           ("tag_hash", Py.JStr "f00d");
           ("check50", Py.JObj [("slug", Py.JStr "cs50/problems/2020/x/hello")])].

(** Scenario B of the specification: 404 on the first 44 polls, then a
    complete body with a timestamp. *)
Definition scenario_B_body : Py.json :=
  Py.JObj [("received_at", Py.JStr "2020-01-01T00:00:00Z");
           ("tag_hash", Py.JStr "f00d");
           ("check50", Py.JObj [("slug", Py.JStr "cs50/problems/2020/x/hello");
                                ("results", Py.JArr []);
                                ("version", Py.JStr "3.0.0")])].

Definition scenario_B (k : nat) : Response :=
  if (k <? 44)%nat then mkResponse 404 (Py.JObj []) else mkResponse 200 scenario_B_body.

(** A server that never has the results. *)
Definition never_ready (k : nat) : Response := mkResponse 404 (Py.JObj []).

(** The classes for which the terminal branch prints a message: a domain
    error with arguments, a missing file, a keyboard interrupt, or any
    [Exception]. *)
Definition handled (exc : ExcInfo) : bool :=
  ((is_internal_error exc || is_lib50_error exc) && has_args exc
   || is_file_not_found exc || is_keyboard_interrupt exc || is_exception exc)%bool.

(** The elements at positions 0, 2, 4, ... of a list, and those at
    positions 1, 3, 5, ... *)
Fixpoint evens {A} (l : list A) : list A :=
  match l with
  | x :: _ :: t => x :: evens t
  | _ => l
  end.

Fixpoint odds {A} (l : list A) : list A :=
  match l with
  | _ :: y :: t => y :: odds t
  | _ => []
  end.

(** The events servicing one channel emits (none when the hook lets the
    exception go). *)
Definition service_events (version : string) (st : HookState) (exc : ExcInfo)
    (output : string) : list hook_event :=
  match service version st exc output with
  | Continue evs => evs
  | LetGo => []
  end.

Definition is_json_dump (e : hook_event) : bool :=
  match e with
  | JsonDump _ _ _ _ _ _ _ => true
  | _ => false
  end.

(** A domain error ([internal.Error]) with a message. *)
Definition domain_error (msg : string) : ExcInfo :=
  mkExcInfo "Error" true false false false true true msg "" [] None.

(** A user cancellation. *)
Definition keyboard_interrupt : ExcInfo :=
  mkExcInfo "KeyboardInterrupt" false false false true false false "" "" [] None.

(** Some other [BaseException], such as [GeneratorExit]. *)
Definition generator_exit : ExcInfo :=
  mkExcInfo "GeneratorExit" false false false false false false "" "" [] None.

(** The hook as [main] configures it for the given channels. *)
Definition hook_for (outputs : list string) : HookState :=
  mkHookState false outputs None "cs50/problems/2020/x/hello".

(** The suggestion list of the message, as the specification describes
    it: nothing when no similar slug is shown, else a header, one indented
    line per slug shown and a closing line. *)
Definition suggestion_lines (shown : list string) : list string :=
  map (fun similar_slug => Py.nl +:+ "    " +:+ similar_slug) shown.

Definition suggestion_block (shown : list string) : string :=
  match shown with
  | [] => ""
  | _ => " Did you mean:" +:+ String.concat "" (suggestion_lines shown)
         +:+ Py.nl +:+ "Do refer back to the problem specification if unsure."
  end.

(** ** The rest of the module *)

(** *** [yes_no_prompt] *)

(** [str.lower] on ASCII letters. *)
Definition lower_ascii (c : ascii) : ascii :=
  let n := nat_of_ascii c in
  if (Nat.leb 65 n && Nat.leb n 90)%bool then ascii_of_nat (n + 32) else c.

Fixpoint lower (s : string) : string :=
  match s with
  | EmptyString => EmptyString
  | String c s' => String (lower_ascii c) (lower s')
  end.

Definition yes_replies : list string := ["yes"; "ye"; "y"; ""].
Definition no_replies : list string := ["no"; "n"].

(** [reply in yes or reply in no], the negation of the loop condition. *)
Definition recognised (reply : string) : bool :=
  (Py.contains reply yes_replies || Py.contains reply no_replies)%bool.

(** How the prompt ends: with an answer, or with the [EOFError] of
    [input()] when standard input is exhausted. *)
Inductive prompt_result : Type :=
| Answer (yes : bool)
| EOFError.

(** [yes_no_prompt(prompt)] on the lines standard input still holds: the
    number of times the prompt is shown, the answer, and the lines left. *)
Fixpoint yes_no_prompt (lines : list string) : nat * prompt_result * list string :=
  match lines with
  | [] => (1%nat, EOFError, [])
  | line :: rest =>
      let reply := lower line in
      if recognised reply then (1%nat, Answer (Py.contains reply yes_replies), rest)
      else
        let '(n, r, unread) := yes_no_prompt rest in
        (S n, r, unread)
  end.

(** *** [install_dependencies] *)

Inductive install_event : Type :=
| WriteRequirements (req_file content : string)
| PipInstall (command : list string) (quiet : bool)
| ReloadSite.

(** What the function reads of the interpreter and gets from the
    subprocess: whether [sys.base_prefix == sys.prefix], whether [sys] has
    [real_prefix], the path of the requirements file in the temporary
    directory, and whether [pip] exits with status 0. *)
Record InstallEnv : Type := mkInstallEnv {
  base_prefix_is_prefix : bool;
  has_real_prefix : bool;
  req_file : string;
  pip_succeeds : list string -> bool
}.

(** The writes [f.write(f"{dependency}\n")], one after the other. *)
Definition write_requirements (dependencies : list string) : string :=
  foldl (fun content dependency => content +:+ dependency +:+ Py.nl) "" dependencies.

Definition pip_command (env : InstallEnv) : list string :=
  ["python3"; "-m"; "pip"; "install"; "-r"; req_file env]
  ++ (if (base_prefix_is_prefix env && negb (has_real_prefix env))%bool
      then ["--user"] else []).

Definition install_dependencies (env : InstallEnv) (dependencies : list string)
    (verbose : bool) : list install_event * Py.result unit :=
  match dependencies with
  | [] => ([], Py.ok tt)
  | _ =>
      let written := WriteRequirements (req_file env) (write_requirements dependencies) in
      let pip := pip_command env in
      let call := PipInstall pip (negb verbose) in
      if pip_succeeds env pip then ([written; call; ReloadSite], Py.ok tt)
      else ([written; call],
            Py.raise (Py.InternalError "failed to install dependencies"))
  end.

(** *** [main]: the hook's configuration and the rendering of the results *)

(** The assignments to the attributes of [excepthook] after
    [validate_args]. *)
Definition configure_hook (args : Namespace) : HookState :=
  mkHookState (verbose args) (output args) (output_file args) (slug args).

(** The renderers and what the rendering reads of its surroundings: the
    value of [CS50_IDE_TYPE], whether the [c9] command succeeds on a page, and
    the name of the [n]-th temporary file. *)
Record RenderEnv : Type := mkRenderEnv {
  to_json : Py.json -> string;
  to_ansi : Py.json -> bool -> string;
  to_html : Py.json -> string;
  cs50_ide_type : option string;
  c9_succeeds : string -> bool;
  temp_name : nat -> string
}.

Inductive render_event : Type :=
| SinkWrite (text : string)
| C9Render (html : string)
| TempHtml (name html : string)
| CPrintBold (msg : string).

Inductive render_result : Type :=
| Rendered
| CalledProcessError.

Definition in_ide (env : RenderEnv) : bool :=
  match cs50_ide_type env with
  | Some v => negb (bool_decide (v = ""))
  | None => false
  end.

Definition browser_message (url : string) : string :=
  "To see the results in your browser go to " +:+ url.

(** The loop [for output in args.output] of [main]; [temps] counts the
    temporary files made so far. *)
Fixpoint render (env : RenderEnv) (args : Namespace) (results : Py.json)
    (tag_hash : string) (outputs : list string) (temps : nat)
  : list render_event * render_result :=
  match outputs with
  | [] => ([], Rendered)
  | output :: rest =>
      if bool_decide (output = "json") then
        let '(evs, r) := render env args results tag_hash rest temps in
        (SinkWrite (to_json env results) :: SinkWrite Py.nl :: evs, r)
      else if bool_decide (output = "ansi") then
        let '(evs, r) := render env args results tag_hash rest temps in
        (SinkWrite (to_ansi env results (ansi_log args)) :: SinkWrite Py.nl :: evs, r)
      else if bool_decide (output = "html") then
        if (in_ide env && local args)%bool then
          let html := to_html env results in
          if c9_succeeds env html then
            let '(evs, r) := render env args results tag_hash rest temps in
            (C9Render html :: evs, r)
          else ([C9Render html], CalledProcessError)
        else if local args then
          let html := to_html env results in
          let name := temp_name env temps in
          let '(evs, r) := render env args results tag_hash rest (S temps) in
          (TempHtml name html :: CPrintBold (browser_message ("file://" +:+ name)) :: evs, r)
        else
          let '(evs, r) := render env args results tag_hash rest temps in
          (CPrintBold (browser_message ("https://submit.cs50.io/check50/" +:+ tag_hash))
             :: evs, r)
      else render env args results tag_hash rest temps
  end.

(** Where the renderings go: the file named by [--output-file], or
    standard output. *)
Definition render_sink (args : Namespace) : option string :=
  match output_file args with
  | Some f => if bool_decide (f = "") then None else Some f
  | None => None
  end.

(** *** Reference definitions for the statements about these functions *)

(** The log of a successful [validate_args], event by event. *)
Definition ansi_log_warning (a : Namespace) : list log_event :=
  if Py.contains "ansi" (output a) then []
  else if ansi_log a then
    [LogWarning "--ansi-log has no effect when ansi is not among the output formats"]
  else [].

Definition resolution_log (l : LogLevel) (a : Namespace) : list log_event :=
  setup_logging l
    :: useless_args_warning (resolved_plan l a)
    ++ snd (filter_duplicates (output a))
    ++ ansi_log_warning a.

Definition is_setup_logging (e : log_event) : bool :=
  match e with
  | SetupLogging _ _ => true
  | LogWarning _ => false
  end.

(** The warning about options that need [--local] is in the log. *)
Definition local_warning_logged (w : list log_event) : Prop :=
  exists flags,
    LogWarning ("You should always use --local when using: " +:+ flags) ∈ w.

Definition is_sleep (e : poll_event) : bool :=
  match e with
  | Sleep _ => true
  | Get _ _ => false
  end.

Definition sleeps (trace : list poll_event) : nat :=
  length (filter (fun e => is_sleep e = true) trace).

(** Two responses the poller cannot tell apart: the same status, and the
    same body unless the status is 404. *)
Definition same_view (r1 r2 : Response) : Prop :=
  status_code r1 = status_code r2
  /\ (status_code r1 = 404 \/ body r1 = body r2).

Definition is_verbose_event (e : hook_event) : bool :=
  match e with
  | PrintException | PrintPayload _ => true
  | _ => false
  end.

Definition is_terminal_channel (output : string) : bool :=
  (bool_decide (output = "ansi") || bool_decide (output = "html"))%bool.

(** The text the rendering writes to the sink, and what one channel
    contributes to it. *)
Definition sink_text (events : list render_event) : string :=
  foldr (fun e text => match e with SinkWrite t => t +:+ text | _ => text end)
    "" events.

Definition channel_text (env : RenderEnv) (args : Namespace) (results : Py.json)
    (output : string) : string :=
  if bool_decide (output = "json") then to_json env results +:+ Py.nl
  else if bool_decide (output = "ansi") then
    to_ansi env results (ansi_log args) +:+ Py.nl
  else "".

Definition renders_page (e : render_event) : bool :=
  match e with
  | C9Render _ | TempHtml _ _ => true
  | _ => false
  end.

(** A remote run asking for JSON twice and a page, into a file, with a
    lower-case log level, [--ansi-log] and [--no-download-checks]. *)
Definition sample_args : Namespace :=
  mkNamespace "cs50/problems/2020/x/hello" false false false
    ["json"; "html"; "json"] None (Some "results.json") false
    (LevelName "info") true true false None.

Definition sample_plan : Namespace := resolved_plan INFO sample_args.
Definition sample_log : list log_event := resolution_log INFO sample_args.

(** Renderers and surroundings for the examples: no IDE, a fresh name for
    every temporary file. *)
Definition sample_render_env : RenderEnv :=
  mkRenderEnv (fun _ => "{}") (fun _ _ => "results") (fun _ => "<html></html>")
    None (fun _ => true)
    (fun n => "/tmp/tmp" +:+ String.concat "" (replicate n "x") +:+ ".html").

Definition sample_install_env : InstallEnv :=
  mkInstallEnv true false "/tmp/req/requirements.txt" (fun _ => false).


(** A string of ASCII characters only, on which [upper] and [lower] are
    [str.upper] and [str.lower]. *)
Fixpoint ascii_only (s : string) : bool :=
  match s with
  | EmptyString => true
  | String c s' => (Nat.ltb (nat_of_ascii c) 128 && ascii_only s')%bool
  end.

(** A ready body whose nested result carries an error, and one whose
    nested result is null. *)
Definition body_with_error : Py.json :=
  Py.JObj [("received_at", Py.JStr "2020-01-01T00:00:00Z");
           ("tag_hash", Py.JStr "f00d");
           ("check50", Py.JObj [("error", Py.JStr "timeout")])].

Definition body_with_null_result : Py.json :=
  Py.JObj [("received_at", Py.JStr "2020-01-01T00:00:00Z");
           ("tag_hash", Py.JStr "f00d");
           ("check50", Py.JNull)].

(** 404 on the first 44 polls, then a ready response without a result. *)
Definition scenario_B_null (k : nat) : Response :=
  if (k <? 44)%nat then mkResponse 404 (Py.JObj [])
  else mkResponse 200 body_with_null_result.

(** * Properties *)

(** ** The duplicate filter *)

Section FilterDuplicates.

Implicit Types (l seen : list string) (log : list log_event) (x : string).

Lemma contains_true x l : Py.contains x l = true <-> x ∈ l.
Proof. unfold Py.contains. apply bool_decide_eq_true. Qed.

Lemma contains_false x l : Py.contains x l = false <-> x ∉ l.
Proof. unfold Py.contains. apply bool_decide_eq_false. Qed.

Lemma first_occurrences_filter (P : string -> Prop) `{!forall x, Decision (P x)} l :
  first_occurrences (filter P l) = filter P (first_occurrences l).
Proof.
  induction l as [|x t IH]; [done|].
  destruct (decide (P x)) as [HP|HP].
  - rewrite filter_cons_True by done. simpl.
    rewrite filter_cons_True by done. f_equal.
    rewrite IH, !list_filter_filter. apply list_filter_iff. intros y. tauto.
  - rewrite filter_cons_False by done. simpl.
    rewrite filter_cons_False by done.
    rewrite IH, list_filter_filter. apply list_filter_iff.
    intros y. split; [|tauto]. intros Hy. split; [done|congruence].
Qed.

Lemma first_occurrences_elem l x : x ∈ first_occurrences l <-> x ∈ l.
Proof.
  induction l as [|y t IH]; [done|]. simpl.
  rewrite !elem_of_cons, list_elem_of_filter, IH.
  destruct (decide (x = y)); tauto.
Qed.

Lemma first_occurrences_NoDup l : NoDup (first_occurrences l).
Proof.
  induction l as [|y t IH]; simpl; [constructor|].
  constructor; [|by apply NoDup_filter].
  rewrite list_elem_of_filter. tauto.
Qed.

Lemma first_occurrences_sublist l : first_occurrences l `sublist_of` l.
Proof.
  induction l as [|y t IH]; simpl; [done|].
  constructor. etrans; [apply sublist_filter|done].
Qed.

Lemma first_occurrences_id l : NoDup l -> first_occurrences l = l.
Proof.
  induction 1 as [|x t Hx _ IH]; [done|]. simpl. rewrite IH. f_equal.
  clear IH. induction t as [|y t IHt]; [done|].
  apply not_elem_of_cons in Hx as [Hne Hx].
  rewrite filter_cons_True by congruence. f_equal. by apply IHt.
Qed.

(** The loop, started from any accumulator. *)
Lemma filter_step_seen l seen log :
  fst (foldl filter_step (seen, log) l)
  = seen ++ first_occurrences (filter (fun y => y ∉ seen) l).
Proof.
  revert seen log. induction l as [|x t IH]; intros seen log; simpl.
  - by rewrite app_nil_r.
  - destruct (Py.contains x seen) eqn:Hx.
    + apply contains_true in Hx. rewrite IH.
      rewrite filter_cons_False by tauto. done.
    + apply contains_false in Hx. rewrite IH.
      rewrite filter_cons_True by done. simpl.
      rewrite <- app_assoc. simpl. do 2 f_equal.
      rewrite <- first_occurrences_filter, list_filter_filter.
      f_equal. apply list_filter_iff. intros y.
      rewrite elem_of_app, list_elem_of_singleton. tauto.
Qed.

Lemma filter_duplicates_seen l :
  fst (filter_duplicates l) = first_occurrences l.
Proof.
  unfold filter_duplicates. rewrite filter_step_seen. simpl. f_equal.
  induction l as [|x t IH]; [done|].
  rewrite filter_cons_True by apply not_elem_of_nil. by f_equal.
Qed.

Lemma duplicate_warning_inj x y :
  duplicate_warning x = duplicate_warning y -> x = y.
Proof. unfold duplicate_warning. cbn. intros H. by simplify_eq. Qed.

Lemma occurrences_app {A} `{EqDecision A} (x : A) (l k : list A) :
  occurrences x (l ++ k) = (occurrences x l + occurrences x k)%nat.
Proof. unfold occurrences. by rewrite filter_app, length_app. Qed.

Lemma occurrences_cons {A} `{EqDecision A} (x y : A) (l : list A) :
  occurrences x (y :: l)
  = ((if decide (y = x) then 1 else 0) + occurrences x l)%nat.
Proof.
  unfold occurrences. rewrite filter_cons. by destruct (decide (y = x)).
Qed.

Lemma occurrences_zero {A} `{EqDecision A} (x : A) (l : list A) :
  x ∉ l -> occurrences x l = 0%nat.
Proof.
  induction l as [|y t IH]; [done|]. intros [Hne Hx]%not_elem_of_cons.
  rewrite occurrences_cons, IH by done. by destruct (decide (y = x)).
Qed.

Lemma occurrences_pos {A} `{EqDecision A} (x : A) (l : list A) :
  x ∈ l -> (0 < occurrences x l)%nat.
Proof.
  induction l as [|y t IH]; [by intros ?%elem_of_nil|].
  rewrite occurrences_cons. destruct (decide (y = x)); [lia|].
  intros [?|Hx]%elem_of_cons; [congruence|]. specialize (IH Hx). lia.
Qed.

(** One warning for every occurrence the loop does not keep. *)
Lemma filter_step_warnings l seen log x :
  occurrences (duplicate_warning x) (snd (foldl filter_step (seen, log) l))
  = (occurrences (duplicate_warning x) log + occurrences x l
     - (if decide (x ∈ seen) then 0 else if decide (x ∈ l) then 1 else 0))%nat.
Proof.
  revert seen log. induction l as [|y t IH]; intros seen log; simpl.
  - change (occurrences x []) with 0%nat.
    destruct (decide (x ∈ seen)); [lia|].
    destruct (decide (x ∈ [])) as [[]%elem_of_nil|]; lia.
  - rewrite (occurrences_cons x y t).
    destruct (Py.contains y seen) eqn:Hy.
    + apply contains_true in Hy.
      rewrite IH, (occurrences_app (duplicate_warning x)),
        (occurrences_cons (duplicate_warning x)).
      change (occurrences (duplicate_warning x) []) with 0%nat.
      repeat case_decide;
        repeat match goal with
               | H : duplicate_warning _ = duplicate_warning _ |- _ =>
                   apply duplicate_warning_inj in H
               end;
        subst; try lia; exfalso; set_solver.
    + apply contains_false in Hy. rewrite IH.
      repeat case_decide; subst; try lia; exfalso; set_solver.
Qed.

Lemma filter_duplicates_warnings l x :
  occurrences (duplicate_warning x) (snd (filter_duplicates l))
  = (occurrences x l - 1)%nat.
Proof.
  unfold filter_duplicates. rewrite filter_step_warnings.
  change (occurrences (duplicate_warning x) []) with 0%nat.
  rewrite decide_False by apply not_elem_of_nil.
  destruct (decide (x ∈ l)) as [Hx|Hx]; [lia|].
  rewrite occurrences_zero by done. lia.
Qed.

(** Nothing else than duplicate warnings comes out of the loop. *)
Lemma filter_step_only_warnings l seen log :
  Forall (fun e => exists x, e = duplicate_warning x) log ->
  Forall (fun e => exists x, e = duplicate_warning x)
    (snd (foldl filter_step (seen, log) l)).
Proof.
  revert seen log. induction l as [|y t IH]; intros seen log Hlog; simpl; [done|].
  destruct (Py.contains y seen); apply IH; [|done].
  apply Forall_app. split; [done|]. repeat constructor. by exists y.
Qed.

End FilterDuplicates.

(** ** The option resolver *)

Section ValidateArgs.

Implicit Types (a p : Namespace) (w : list log_event) (l : LogLevel).

Lemma upper_level_name l : Py.upper (level_name l) = level_name l.
Proof. by destruct l. Qed.

Lemma LogLevel_members_name l : LogLevel_members (level_name l) = Py.ok l.
Proof. by destruct l. Qed.

Lemma contains_first_occurrences x (o : list string) :
  Py.contains x (first_occurrences o) = Py.contains x o.
Proof.
  unfold Py.contains. apply bool_decide_ext, first_occurrences_elem.
Qed.

Lemma useless_args_no_duplicate_warning a :
  no_duplicate_warning (useless_args_warning a).
Proof.
  intros x. unfold useless_args_warning.
  destruct (local a), (no_download_checks a), (no_install_dependencies a);
    done.
Qed.

Ltac psimpl :=
  cbn [slug dev offline local output target output_file verbose log_level
       ansi_log no_download_checks no_install_dependencies ansi_output
       Py.bind Py.ok Py.raise log_level_upper fst snd orb andb
       set_offline set_verbose set_ansi_output set_no_install_dependencies
       set_no_download_checks set_local set_log_level set_output
       set_ansi_log].

(** The two implication blocks, field by field. *)
Lemma apply_rules_closed a :
  apply_offline (apply_dev a)
  = let off := (dev a || offline a)%bool in
    mkNamespace (slug a) (dev a) off (off || local a)%bool (output a)
      (target a) (output_file a) (dev a || verbose a)%bool (log_level a)
      (ansi_log a) (off || no_download_checks a)%bool
      (off || no_install_dependencies a)%bool
      (if (dev a && Py.contains "ansi" (output a))%bool then Some true
       else ansi_output a).
Proof.
  destruct a as [sl dv off loc out tg ofile vb lv al ndl nid ao].
  unfold apply_offline, apply_dev. psimpl.
  generalize (Py.contains "ansi" out). intros b.
  destruct dv, off, b; reflexivity.
Qed.

(** The resolver fails only on the log level; otherwise it yields the
    plan [resolved_plan] and a log in which the duplicate warnings are
    those of the filter loop. *)
Lemma validate_args_inv a :
  match log_level a with
  | Level _ => validate_args a = Py.raise Py.AttributeError
  | LevelName s =>
      match LogLevel_members (Py.upper s) with
      | inl e => validate_args a = Py.raise e
      | inr l =>
          exists pre post,
            validate_args a
            = Py.ok (resolved_plan l a,
                     pre ++ snd (filter_duplicates (output a)) ++ post)
            /\ no_duplicate_warning pre /\ no_duplicate_warning post
      end
  end.
Proof.
  unfold validate_args. rewrite apply_rules_closed.
  destruct a as [sl dv off loc out tg ofile vb lv al ndl nid ao]. psimpl.
  destruct lv as [s|l']; psimpl; [|done].
  destruct (LogLevel_members (Py.upper s)) as [e|l]; psimpl; [done|].
  pose proof (filter_duplicates_seen out) as Hseen.
  destruct (filter_duplicates out) as [seen ws]. cbn [fst] in Hseen. psimpl. subst seen.
  unfold ansi_log_step, resolved_plan. psimpl.
  rewrite contains_first_occurrences.
  generalize (Py.contains "ansi" out). intros b.
  match goal with |- context [useless_args_warning ?x] =>
    pose proof (useless_args_no_duplicate_warning x) as Hu;
    generalize dependent (useless_args_warning x) end.
  intros us Hus.
  assert (Hpre : no_duplicate_warning (setup_logging l :: us)).
  { intros x. rewrite occurrences_cons, Hus. by rewrite decide_False. }
  assert (Hpost : no_duplicate_warning
    [LogWarning "--ansi-log has no effect when ansi is not among the output formats"]).
  { intros x. rewrite occurrences_cons. by rewrite decide_False. }
  assert (Hnil : no_duplicate_warning []) by done.
  destruct b, (level_value l <=? level_value INFO)%Z, al; psimpl;
    rewrite <- ?app_assoc;
    (eexists (setup_logging l :: us), _; split; [reflexivity|done]).
Qed.

Lemma validate_args_raw a l :
  log_level a = LevelName (level_name l) ->
  exists pre post,
    validate_args a
    = Py.ok (resolved_plan l a,
             pre ++ snd (filter_duplicates (output a)) ++ post)
    /\ no_duplicate_warning pre /\ no_duplicate_warning post.
Proof.
  intros Hl. pose proof (validate_args_inv a) as H. rewrite Hl in H.
  by rewrite upper_level_name, LogLevel_members_name in H.
Qed.

(** Whenever the resolver succeeds, the log level was a name and the
    plan is [resolved_plan]. *)
Lemma validate_args_ok a p w :
  validate_args a = Py.ok (p, w) ->
  exists s l,
    log_level a = LevelName s /\ LogLevel_members (Py.upper s) = Py.ok l
    /\ p = resolved_plan l a.
Proof.
  intros Hok. pose proof (validate_args_inv a) as H.
  destruct (log_level a) as [s|l']; [|by rewrite H in Hok].
  destruct (LogLevel_members (Py.upper s)) as [e|l] eqn:Hm;
    [by rewrite H in Hok|].
  destruct H as (pre & post & H & _). rewrite H in Hok.
  exists s, l. repeat split; [done|]. unfold Py.ok in Hok. congruence.
Qed.

Lemma resolved_plan_dev_implies l a : dev_implies (resolved_plan l a).
Proof.
  unfold dev_implies, resolved_plan. simpl. by intros ->.
Qed.

Lemma resolved_plan_offline_implies l a : offline_implies (resolved_plan l a).
Proof.
  unfold offline_implies, resolved_plan. simpl. by intros ->.
Qed.

(** The implications hold of every plan the resolver returns, whatever
    the spelling of the log level. *)
Lemma validate_args_ok_implications a p w :
  validate_args a = Py.ok (p, w) -> dev_implies p /\ offline_implies p.
Proof.
  intros (s & l & _ & _ & ->)%validate_args_ok.
  split; [apply resolved_plan_dev_implies|apply resolved_plan_offline_implies].
Qed.

(** C8: for every raw option set the resolver returns a plan, and in that
    plan developer mode implies offline and verbose, and offline implies
    local, no-download-checks and no-install-dependencies. *)
Theorem validate_args_implications a :
  raw_options a ->
  exists p w,
    validate_args a = Py.ok (p, w) /\ dev_implies p /\ offline_implies p.
Proof.
  intros [l Hl]. destruct (validate_args_raw a l Hl) as (pre & post & H & _).
  eexists _, _. split; [exact H|].
  split; [apply resolved_plan_dev_implies|apply resolved_plan_offline_implies].
Qed.

Lemma validate_args_implications_witness :
  exists p w,
    validate_args (dev_args "cs50/problems/2020/x/hello") = Py.ok (p, w)
    /\ dev_implies p /\ offline_implies p.
Proof.
  apply (validate_args_implications (dev_args "cs50/problems/2020/x/hello")).
  exists WARNING. reflexivity.
Defined.

(** C9: for every raw option set the resolved output channels are the
    distinct channels of the input in the order of their first occurrence
    (no duplicates, same members, a subsequence of the input), the resolver
    does not fail, and the log holds one duplicate warning for every
    occurrence of a channel after its first. *)
Theorem validate_args_output_first_occurrences a :
  raw_options a ->
  exists p w,
    validate_args a = Py.ok (p, w)
    /\ output p = first_occurrences (output a)
    /\ NoDup (output p)
    /\ (forall x, x ∈ output p <-> x ∈ output a)
    /\ output p `sublist_of` output a
    /\ (forall x, occurrences (duplicate_warning x) w
                  = (occurrences x (output a) - 1)%nat).
Proof.
  intros [l Hl].
  destruct (validate_args_raw a l Hl) as (pre & post & H & Hpre & Hpost).
  eexists _, _. split; [exact H|]. simpl.
  split; [done|].
  split; [apply first_occurrences_NoDup|].
  split; [apply first_occurrences_elem|].
  split; [apply first_occurrences_sublist|].
  intros x.
  rewrite !(occurrences_app (duplicate_warning x)), Hpre, Hpost.
  rewrite filter_duplicates_warnings. lia.
Qed.

Lemma validate_args_output_first_occurrences_witness :
  exists p w,
    validate_args
      (set_output ["html"; "ansi"; "html"] (default_args "cs50/problems/2020/x/hello"))
    = Py.ok (p, w)
    /\ output p = first_occurrences ["html"; "ansi"; "html"]
    /\ NoDup (output p)
    /\ (forall x, x ∈ output p <-> x ∈ ["html"; "ansi"; "html"])
    /\ output p `sublist_of` ["html"; "ansi"; "html"]
    /\ (forall x, occurrences (duplicate_warning x) w
                  = (occurrences x ["html"; "ansi"; "html"] - 1)%nat).
Proof.
  apply (validate_args_output_first_occurrences
           (set_output ["html"; "ansi"; "html"]
              (default_args "cs50/problems/2020/x/hello"))).
  exists WARNING. reflexivity.
Defined.

(** The example of the specification: [html, ansi, html] resolves to
    [html, ansi], with one warning. *)
Example validate_args_html_ansi_html :
  validate_args
    (set_output ["html"; "ansi"; "html"] (default_args "cs50/problems/2020/x/hello"))
  = Py.ok
      (resolved_plan WARNING
         (set_output ["html"; "ansi"] (default_args "cs50/problems/2020/x/hello")),
       [SetupLogging WARNING false; duplicate_warning "html"]).
Proof. vm_compute. reflexivity. Qed.

(** The resolved level is the one the option names, in developer mode
    as in any other. *)
Lemma validate_args_log_level a p w :
  validate_args a = Py.ok (p, w) ->
  exists s l,
    log_level a = LevelName s /\ LogLevel_members (Py.upper s) = Py.ok l
    /\ log_level p = Level l.
Proof.
  intros (s & l & Hs & Hm & ->)%validate_args_ok. by exists s, l.
Qed.

(** C1, on the code: in developer mode with the log-level option left at
    its default (WARNING), the resolver returns a plan whose log level is
    WARNING; it is not raised to INFO. *)
Theorem validate_args_dev_default_log_level :
  exists p w,
    validate_args (dev_args "cs50/problems/2020/x/hello") = Py.ok (p, w)
    /\ dev p = true
    /\ log_level p = Level WARNING
    /\ log_level p <> Level INFO.
Proof.
  destruct (validate_args_raw (dev_args "cs50/problems/2020/x/hello") WARNING)
    as (pre & post & H & _); [done|].
  eexists _, _. split; [exact H|]. by repeat split.
Qed.

(** C3 as stated fails: the plan resolved from the default options cannot
    be resolved again, its log level is no longer a string. *)
Lemma validate_args_twice_fails :
  exists p w,
    validate_args (default_args "cs50/problems/2020/x/hello") = Py.ok (p, w)
    /\ validate_args p = Py.raise Py.AttributeError.
Proof.
  destruct (validate_args_raw (default_args "cs50/problems/2020/x/hello") WARNING)
    as (pre & post & H & _); [done|].
  eexists _, _. split; [exact H|].
  exact (validate_args_inv
           (resolved_plan WARNING (default_args "cs50/problems/2020/x/hello"))).
Qed.

Lemma resolved_plan_again l a :
  resolved_plan l (set_log_level (LevelName (level_name l)) (resolved_plan l a))
  = resolved_plan l a.
Proof.
  destruct a as [sl dv off loc out tg ofile vb lv al ndl nid ao].
  unfold resolved_plan, set_log_level. simpl.
  rewrite contains_first_occurrences.
  rewrite (first_occurrences_id (first_occurrences out))
    by apply first_occurrences_NoDup.
  destruct dv, off, loc, vb, ndl, nid, (Py.contains "ansi" out),
    (level_value l <=? 20)%Z; reflexivity.
Qed.

(** C3, amended: a resolved plan is rejected by the resolver as it is
    (its log level is an enum member, not a string); once the log level is
    written back as the level's name, resolving it again succeeds and
    yields the same plan. *)
Theorem validate_args_idempotent_on_level_name a p w :
  validate_args a = Py.ok (p, w) ->
  validate_args p = Py.raise Py.AttributeError
  /\ exists l w',
       log_level p = Level l
       /\ validate_args (set_log_level (LevelName (level_name l)) p)
          = Py.ok (p, w').
Proof.
  intros (s & l & Hs & Hm & ->)%validate_args_ok. split.
  - exact (validate_args_inv (resolved_plan l a)).
  - exists l.
    destruct (validate_args_raw
                (set_log_level (LevelName (level_name l)) (resolved_plan l a)) l)
      as (pre & post & H & _); [done|].
    rewrite resolved_plan_again in H. eauto.
Qed.

Lemma validate_args_idempotent_on_level_name_witness :
  validate_args
    (resolved_plan WARNING
       (set_output ["html"; "ansi"; "html"] (dev_args "cs50/problems/2020/x/hello")))
  = Py.raise Py.AttributeError
  /\ exists l w',
       log_level
         (resolved_plan WARNING
            (set_output ["html"; "ansi"; "html"]
               (dev_args "cs50/problems/2020/x/hello"))) = Level l
       /\ validate_args
            (set_log_level (LevelName (level_name l))
               (resolved_plan WARNING
                  (set_output ["html"; "ansi"; "html"]
                     (dev_args "cs50/problems/2020/x/hello"))))
          = Py.ok
              (resolved_plan WARNING
                 (set_output ["html"; "ansi"; "html"]
                    (dev_args "cs50/problems/2020/x/hello")), w').
Proof.
  apply (validate_args_idempotent_on_level_name
           (set_output ["html"; "ansi"; "html"]
              (dev_args "cs50/problems/2020/x/hello"))
           _ [SetupLogging WARNING false; duplicate_warning "html"]).
  vm_compute. reflexivity.
Defined.

End ValidateArgs.

(** ** The remote poller *)

Section AwaitResults.

Variable server : nat -> Response.
Variables commit_hash slug : string.
Variable sleep : Z.

Implicit Types (n i k : nat) (trace : list poll_event) (res : Response).

Lemma not_ready_step res :
  not_ready res ->
  bool_decide (status_code res ∈ [404; 200]) = true /\ ready res = Py.ok false.
Proof.
  unfold ready. intros [H404|[H200 Hnull]].
  - rewrite H404. split; [by apply bool_decide_eq_true; set_solver|done].
  - rewrite H200, Hnull. split; [by apply bool_decide_eq_true; set_solver|done].
Qed.

Lemma step_not_ready res :
  bool_decide (status_code res ∈ [404; 200]) = true ->
  ready res = Py.ok false ->
  not_ready res.
Proof.
  intros Hin%bool_decide_eq_true Hr. unfold ready in Hr.
  destruct (status_code res =? 200)%Z eqn:H200.
  - right. apply Z.eqb_eq in H200. split; [done|].
    destruct (Py.getitem (body res) "received_at") as [e|t]; simpl in Hr;
      [done|]. destruct t; by simplify_eq.
  - left. apply Z.eqb_neq in H200. set_solver.
Qed.

Lemma ready_response_step res :
  ready_response res ->
  bool_decide (status_code res ∈ [404; 200]) = true /\ ready res = Py.ok true.
Proof.
  unfold ready. intros (H200 & t & Ht & Hnn). rewrite H200, Ht.
  split; [apply bool_decide_eq_true; set_solver|]. by destruct t.
Qed.

Lemma step_ready_response res :
  ready res = Py.ok true -> ready_response res.
Proof.
  unfold ready, ready_response.
  destruct (status_code res =? 200)%Z eqn:H200; [|done].
  apply Z.eqb_eq in H200.
  destruct (Py.getitem (body res) "received_at") as [e|t]; simpl; [done|].
  intros Ht. split; [done|]. exists t. split; [done|]. by destruct t.
Qed.

Lemma attempts_app trace1 trace2 :
  attempts (trace1 ++ trace2) = (attempts trace1 + attempts trace2)%nat.
Proof. unfold attempts. by rewrite filter_app, length_app. Qed.

Lemma attempts_idle_rounds n :
  attempts (idle_rounds commit_hash slug sleep n) = n.
Proof.
  induction n as [|n IH]; [done|]. simpl.
  change (attempts (Get commit_hash slug :: Sleep sleep :: ?t))
    with (S (attempts t)). by rewrite IH.
Qed.

Lemma idle_rounds_snoc n :
  idle_rounds commit_hash slug sleep (S n)
  = idle_rounds commit_hash slug sleep n ++ [Get commit_hash slug; Sleep sleep].
Proof. induction n as [|n IH]; [done|]. simpl in *. by rewrite IH. Qed.

(** Attempts answered "not ready" are slept through. *)
Lemma poll_idle m n i trace :
  (forall j, (i <= j < i + m)%nat -> not_ready (server j)) ->
  poll server commit_hash slug sleep (m + n) i trace
  = poll server commit_hash slug sleep n (i + m)
      (trace ++ idle_rounds commit_hash slug sleep m).
Proof.
  revert i trace. induction m as [|m IH]; intros i trace Hidle.
  - by rewrite Nat.add_0_r, app_nil_r.
  - simpl. destruct (not_ready_step (server i)) as [-> ->]; [apply Hidle; lia|].
    simpl. rewrite IH by (intros j Hj; apply Hidle; lia).
    rewrite <- !app_assoc. simpl. f_equal. lia.
Qed.

(** What the loop did, read off from how it ended. *)
Lemma poll_inv n i trace trace' exit :
  poll server commit_hash slug sleep n i trace = (trace', exit) ->
  match exit with
  | Exhausted =>
      (forall j, (i <= j < i + n)%nat -> not_ready (server j))
      /\ trace' = trace ++ idle_rounds commit_hash slug sleep n
  | Break results =>
      exists k, (i <= k < i + n)%nat
        /\ (forall j, (i <= j < k)%nat -> not_ready (server j))
        /\ ready_response (server k)
        /\ results = body (server k)
        /\ trace' = trace ++ idle_rounds commit_hash slug sleep (k - i)
                    ++ [Get commit_hash slug]
  | Raised e =>
      exists k, (i <= k < i + n)%nat
        /\ (forall j, (i <= j < k)%nat -> not_ready (server j))
        /\ trace' = trace ++ idle_rounds commit_hash slug sleep (k - i)
                    ++ [Get commit_hash slug]
        /\ (((status_code (server k) ∉ [404; 200])
             /\ e = Py.RemoteCheckError (body (server k)))
            \/ (status_code (server k) = 200
                /\ Py.getitem (body (server k)) "received_at" = Py.raise e))
  end.
Proof.
  revert i trace. induction n as [|n IH]; intros i trace; simpl.
  - intros [= <- <-]. split; [intros j ?; lia|by rewrite app_nil_r].
  - destruct (bool_decide (status_code (server i) ∈ [404; 200])) eqn:Hin; simpl.
    2:{ intros [= <- <-]. exists i. rewrite Nat.sub_diag. simpl.
        apply bool_decide_eq_false in Hin.
        split_and!; [lia|lia|intros j ?; lia|done|by left]. }
    destruct (ready (server i)) as [e|[|]] eqn:Hr.
    + intros [= <- <-]. exists i. rewrite Nat.sub_diag. simpl.
      split_and!; [lia|lia|intros j ?; lia|done|]. right.
      unfold ready in Hr.
      destruct (status_code (server i) =? 200)%Z eqn:H200; [|done].
      apply Z.eqb_eq in H200. split; [done|].
      destruct (Py.getitem (body (server i)) "received_at"); [|done].
      simpl in Hr. unfold Py.raise. congruence.
    + intros [= <- <-]. exists i. rewrite Nat.sub_diag. simpl.
      split_and!; [lia|lia|intros j ?; lia|by apply step_ready_response|done|done].
    + intros Hp. apply IH in Hp.
      pose proof (step_not_ready _ Hin Hr) as Hnr.
      assert (Hext : forall k,
                (forall j, (S i <= j < k)%nat -> not_ready (server j)) ->
                forall j, (i <= j < k)%nat -> not_ready (server j)).
      { intros k Hall j Hj. destruct (decide (j = i)) as [->|]; [done|].
        apply Hall. lia. }
      assert (Htr : forall k tl, (S i <= k)%nat ->
                ((trace ++ [Get commit_hash slug]) ++ [Sleep sleep])
                ++ idle_rounds commit_hash slug sleep (k - S i) ++ tl
                = trace ++ idle_rounds commit_hash slug sleep (k - i) ++ tl).
      { intros k tl Hk. replace (k - i)%nat with (S (k - S i)) by lia.
        rewrite <- !app_assoc. done. }
      destruct exit as [results|e|].
      * destruct Hp as (k & Hk & Hall & Hrdy & -> & ->). exists k.
        split_and!; [lia|lia|by apply Hext|done|done|apply Htr; lia].
      * destruct Hp as (k & Hk & Hall & -> & Hcase). exists k.
        split_and!; [lia|lia|by apply Hext|apply Htr; lia|done].
      * destruct Hp as (Hall & ->). split.
        -- apply Hext. intros j Hj. apply Hall. lia.
        -- rewrite <- !app_assoc. done.
Qed.

Lemma getitem_raises d key e :
  Py.getitem d key = Py.raise e -> e = Py.KeyError key \/ e = Py.TypeError.
Proof.
  destruct d; simpl; unfold Py.raise, Py.ok; try (intros [= <-]; by right).
  destruct (Py.lookup_field key fields); [done|]. intros [= <-]. by left.
Qed.

Lemma json_contains_raises key d e :
  Py.json_contains key d = Py.raise e -> e = Py.TypeError.
Proof. destruct d; simpl; unfold Py.raise, Py.ok; congruence. Qed.

(** The statements after the loop raise the remote-check error or a
    lookup error, never the timeout error. *)
Lemma extract_not_internal results msg :
  extract results <> Py.raise (Py.InternalError msg).
Proof.
  unfold extract, Py.raise, Py.ok.
  destruct (Py.getitem results "check50") as [e|c] eqn:Hc; simpl.
  { apply getitem_raises in Hc as [->| ->]; discriminate. }
  destruct (Py.truthy c); simpl; [|discriminate].
  destruct (Py.json_contains "error" c) as [e|[|]] eqn:He; simpl.
  { apply json_contains_raises in He as ->. discriminate. }
  { discriminate. }
  repeat match goal with
    | |- context [Py.getitem ?d ?k] =>
        let H := fresh in
        destruct (Py.getitem d k) eqn:H; simpl;
        [apply getitem_raises in H as [->| ->]; discriminate|]
    end.
  discriminate.
Qed.

Lemma extract_complete results tag_hash sl rs version :
  complete_results results tag_hash sl rs version ->
  extract results
  = Py.ok (tag_hash,
           Py.JObj [("slug", sl); ("results", rs); ("version", version)]).
Proof.
  intros (fields & nested & -> & Hc & Ht & He & Hs & Hr & Hv).
  assert (Htruthy : Py.truthy (Py.JObj nested) = true)
    by (by destruct nested).
  unfold extract. cbn [Py.getitem]. rewrite Hc. cbn [Py.bind Py.ok].
  rewrite Htruthy. cbn [negb Py.json_contains Py.bind Py.ok].
  rewrite He. rewrite bool_decide_eq_false_2 by (by intros [? [=]]).
  rewrite Ht. cbn [Py.getitem Py.bind Py.ok]. by rewrite Hs, Hr, Hv.
Qed.

(** C5: when every response to the attempts the poller can make is "not
    ready", it sends exactly [pings] queries (none for a negative
    [pings]) and then raises the timeout error. *)
Theorem await_results_timeout pings :
  (forall k, Z.of_nat k < pings -> not_ready (server k)) ->
  exists trace,
    await_results_from server commit_hash slug pings sleep
    = (trace, Py.raise (Py.InternalError (timeout_message commit_hash)))
    /\ attempts trace = Z.to_nat pings
    /\ (0 <= pings -> Z.of_nat (attempts trace) = pings).
Proof.
  intros Hidle. unfold await_results_from.
  pose proof (poll_idle (Z.to_nat pings) 0 0 []) as Hp.
  rewrite Nat.add_0_r in Hp. rewrite Hp by (intros j Hj; apply Hidle; lia).
  simpl. eexists. split; [done|]. rewrite attempts_idle_rounds.
  split; [done|lia].
Qed.

(** The poller stops at the first ready response and goes on with its
    body. *)
Lemma await_results_from_ready pings k :
  reached server pings k ->
  ready_response (server k) ->
  await_results_from server commit_hash slug pings sleep
  = (idle_rounds commit_hash slug sleep k ++ [Get commit_hash slug],
     extract (body (server k))).
Proof.
  intros [Hk Hidle] Hready. unfold await_results_from.
  replace (Z.to_nat pings) with (k + S (Z.to_nat pings - S k))%nat by lia.
  rewrite poll_idle by (intros j Hj; apply Hidle; lia).
  simpl. by destruct (ready_response_step _ Hready) as [-> ->].
Qed.

Lemma extract_remote_check_error results remote_json :
  extract results = Py.raise (Py.RemoteCheckError remote_json)
  <-> rejected results remote_json.
Proof.
  unfold extract, rejected.
  destruct (Py.getitem results "check50") as [e|c] eqn:Hc; simpl.
  { split; [|by intros (? & [=] & _)].
    unfold Py.raise. intros [= ->].
    apply getitem_raises in Hc as [|]; discriminate. }
  destruct (Py.truthy c) eqn:Htr; simpl.
  2:{ unfold Py.raise, Py.ok. split.
      - intros [= <-]. exists c. split; [done|]. by left.
      - intros (c' & [= <-] & [[_ ->]|[? _]]); congruence. }
  destruct (Py.json_contains "error" c) as [e|[|]] eqn:He; simpl.
  - split.
    + unfold Py.raise. intros [= ->].
      apply json_contains_raises in He. discriminate.
    + unfold Py.ok. intros (c' & [= <-] & [[? _]|(_ & ? & _)]); congruence.
  - unfold Py.raise, Py.ok. split.
    + intros [= <-]. exists c. split; [done|]. by right.
    + intros (c' & [= <-] & [[? _]|(_ & _ & ->)]); congruence.
  - split.
    + repeat match goal with
        | |- context [Py.getitem ?d ?k] =>
            let H := fresh in
            destruct (Py.getitem d k) eqn:H; simpl;
            [unfold Py.raise; intros [= ->];
             apply getitem_raises in H as [|]; discriminate|]
        end.
      discriminate.
    + unfold Py.ok. intros (c' & [= <-] & [[? _]|(_ & ? & _)]); congruence.
Qed.

Lemma getitem_ok d key v :
  Py.getitem d key = Py.ok v ->
  exists fields, d = Py.JObj fields /\ Py.lookup_field key fields = Some v.
Proof.
  destruct d; simpl; unfold Py.raise, Py.ok; try discriminate.
  destruct (Py.lookup_field key fields) eqn:Hl; [|discriminate].
  intros [= <-]. by exists fields.
Qed.

(** The three ways the statements after the loop can end. *)
Lemma extract_cases results :
  (exists tag_hash sl rs version,
     complete_results results tag_hash sl rs version
     /\ extract results
        = Py.ok (tag_hash,
                 Py.JObj [("slug", sl); ("results", rs); ("version", version)]))
  \/ (exists remote_json,
        rejected results remote_json
        /\ extract results = Py.raise (Py.RemoteCheckError remote_json))
  \/ (exists e,
        extract results = Py.raise e
        /\ (e = Py.TypeError \/ exists key, e = Py.KeyError key)).
Proof.
  destruct (extract results) as [e|[tag payload]] eqn:Hx.
  - destruct e as [remote_json|msg|key| |].
    + right; left. exists remote_json. split; [|done].
      by apply extract_remote_check_error.
    + by apply extract_not_internal in Hx.
    + right; right. eexists. split; [done|]. right. by exists key.
    + right; right. eexists. split; [done|]. by left.
    + exfalso. revert Hx. unfold extract.
      repeat match goal with
        | |- context [Py.getitem ?d ?k] =>
            let H := fresh in
            destruct (Py.getitem d k) eqn:H; simpl;
            [apply getitem_raises in H as [->| ->]; discriminate|]
        | |- context [if ?b then _ else _] => destruct b; simpl
        | |- context [Py.json_contains ?k ?d] =>
            let H := fresh in
            destruct (Py.json_contains k d) eqn:H; simpl;
            [apply json_contains_raises in H as ->; discriminate|]
        end; discriminate.
  - left. revert Hx. unfold extract.
    destruct (Py.getitem results "check50") as [e|c] eqn:Hc; simpl; [done|].
    destruct (Py.truthy c); simpl; [|done].
    destruct (Py.json_contains "error" c) as [e|[|]] eqn:He; simpl; [done|done|].
    destruct (Py.getitem results "tag_hash") as [e|t] eqn:Ht; simpl; [done|].
    destruct (Py.getitem c "slug") as [e|sl] eqn:Hs; simpl; [done|].
    destruct (Py.getitem c "results") as [e|rs] eqn:Hr; simpl; [done|].
    destruct (Py.getitem c "version") as [e|v] eqn:Hv; simpl; [done|].
    unfold Py.ok. intros [= <- <-]. exists t, sl, rs, v. split; [|done].
    apply getitem_ok in Hc as (fields & -> & Hc).
    apply getitem_ok in Hs as (nested & -> & Hs).
    apply getitem_ok in Ht as (? & [= <-] & Ht).
    apply getitem_ok in Hr as (? & [= <-] & Hr).
    apply getitem_ok in Hv as (? & [= <-] & Hv).
    exists fields, nested. split_and!; try done.
    simpl in He. unfold Py.ok in He. injection He as He.
    apply bool_decide_eq_false in He.
    destruct (Py.lookup_field "error" nested); [|done].
    exfalso. apply He. by eexists.
Qed.

(** C6, amended: when attempt number [k] (counted from 0, within [pings])
    is the first whose response is ready, the loop stops there: the poller
    sends [k + 1] queries and no more and does not time out.  What it then
    returns or raises is what the statements after the loop make of that
    response alone: the tag hash and the payload when the body is complete,
    the remote-check error when the nested result is turned down, a lookup
    error otherwise. *)
Theorem await_results_first_ready pings k :
  Z.of_nat k < pings ->
  (forall j, (j < k)%nat -> not_ready (server j)) ->
  ready_response (server k) ->
  exists trace,
    await_results_from server commit_hash slug pings sleep
    = (trace, extract (body (server k)))
    /\ attempts trace = S k
    /\ last trace = Some (Get commit_hash slug)
    /\ (forall msg, extract (body (server k)) <> Py.raise (Py.InternalError msg))
    /\ (forall tag_hash sl rs version,
          complete_results (body (server k)) tag_hash sl rs version ->
          extract (body (server k))
          = Py.ok (tag_hash,
                   Py.JObj [("slug", sl); ("results", rs); ("version", version)]))
    /\ ((exists tag_hash sl rs version,
           complete_results (body (server k)) tag_hash sl rs version
           /\ extract (body (server k))
              = Py.ok (tag_hash,
                       Py.JObj [("slug", sl); ("results", rs); ("version", version)]))
        \/ (exists remote_json,
              rejected (body (server k)) remote_json
              /\ extract (body (server k))
                 = Py.raise (Py.RemoteCheckError remote_json))
        \/ (exists e,
              extract (body (server k)) = Py.raise e
              /\ (e = Py.TypeError \/ exists key, e = Py.KeyError key))).
Proof.
  intros Hk Hidle Hready.
  rewrite (await_results_from_ready pings k) by done.
  eexists. split; [done|].
  split_and!.
  - rewrite attempts_app, attempts_idle_rounds.
    change (attempts [Get commit_hash slug]) with 1%nat. lia.
  - by rewrite last_snoc.
  - intros msg. apply extract_not_internal.
  - apply extract_complete.
  - apply extract_cases.
Qed.

(** C7, amended: the poller raises the remote-check error exactly when an
    attempt it makes is answered with a status outside {200, 404} (the
    error carries that body), or the ready response it stops at holds a
    nested result that is empty or in which ["error"] occurs; a bad status
    ends the polling with that very query; a ready response with a complete
    body yields the tag hash and the payload; and a ready response that is
    neither turned down nor complete raises a lookup error. *)
Theorem await_results_remote_check_error pings :
  (forall remote_json,
     snd (await_results_from server commit_hash slug pings sleep)
     = Py.raise (Py.RemoteCheckError remote_json)
     <-> exists k,
          reached server pings k
          /\ (((status_code (server k) ∉ [404; 200])
               /\ remote_json = body (server k))
              \/ (ready_response (server k)
                  /\ rejected (body (server k)) remote_json)))
  /\ (forall k,
        reached server pings k ->
        status_code (server k) ∉ [404; 200] ->
        attempts (fst (await_results_from server commit_hash slug pings sleep))
        = S k)
  /\ (forall k tag_hash sl rs version,
        reached server pings k ->
        ready_response (server k) ->
        complete_results (body (server k)) tag_hash sl rs version ->
        snd (await_results_from server commit_hash slug pings sleep)
        = Py.ok (tag_hash,
                 Py.JObj [("slug", sl); ("results", rs); ("version", version)]))
  /\ (forall k,
        reached server pings k ->
        ready_response (server k) ->
        (forall remote_json, ~ rejected (body (server k)) remote_json) ->
        (forall tag_hash sl rs version,
           ~ complete_results (body (server k)) tag_hash sl rs version) ->
        exists e,
          snd (await_results_from server commit_hash slug pings sleep)
          = Py.raise e
          /\ (e = Py.TypeError \/ exists key, e = Py.KeyError key)).
Proof.
  assert (Hbad : forall k,
    reached server pings k -> status_code (server k) ∉ [404; 200] ->
    await_results_from server commit_hash slug pings sleep
    = (idle_rounds commit_hash slug sleep k ++ [Get commit_hash slug],
       Py.raise (Py.RemoteCheckError (body (server k))))).
  { intros k [Hk Hidle] Hst. unfold await_results_from.
    replace (Z.to_nat pings) with (k + S (Z.to_nat pings - S k))%nat by lia.
    rewrite poll_idle by (intros j Hj; apply Hidle; lia).
    simpl. by rewrite bool_decide_eq_false_2. }
  assert (Hrdy : forall k,
    reached server pings k -> ready_response (server k) ->
    snd (await_results_from server commit_hash slug pings sleep)
    = extract (body (server k))).
  { intros k Hreach Hr. by rewrite (await_results_from_ready pings k). }
  split_and!.
  - intros remote_json. split.
    + unfold await_results_from.
      destruct (poll server commit_hash slug sleep (Z.to_nat pings) 0 [])
        as [trace exit] eqn:Hp.
      apply poll_inv in Hp. destruct exit as [results|e|]; simpl.
      * destruct Hp as (k & Hk & Hidle & Hr & -> & _).
        intros Hx%extract_remote_check_error. exists k. split.
        -- split; [lia|]. intros j Hj. apply Hidle. lia.
        -- by right.
      * destruct Hp as (k & Hk & Hidle & _ & Hcase).
        unfold Py.raise. intros [= ->]. exists k. split.
        -- split; [lia|]. intros j Hj. apply Hidle. lia.
        -- destruct Hcase as [[Hst [= ->]]|[_ Hg]]; [by left|].
           apply getitem_raises in Hg as [|]; discriminate.
      * discriminate.
    + intros (k & Hreach & [[Hst ->]|[Hr Hx]]).
      * by rewrite (Hbad k).
      * rewrite (Hrdy k) by done. by apply extract_remote_check_error.
  - intros k Hreach Hst. rewrite (Hbad k) by done. simpl.
    rewrite attempts_app, attempts_idle_rounds.
    change (attempts [Get commit_hash slug]) with 1%nat. lia.
  - intros k tag_hash sl rs version Hreach Hr Hc.
    rewrite (Hrdy k) by done. by apply extract_complete.
  - intros k Hreach Hr Hnrej Hncomp. rewrite (Hrdy k) by done.
    destruct (extract_cases (body (server k)))
      as [(t & sl & rs & v & Hc & _)|[(j & Hj & _)|He]].
    + by apply Hncomp in Hc.
    + by apply Hnrej in Hj.
    + exact He.
Qed.

End AwaitResults.

Lemma await_results_timeout_witness :
  exists trace,
    await_results never_ready "c0ffee" "cs50/problems/2020/x/hello"
    = (trace, Py.raise (Py.InternalError (timeout_message "c0ffee")))
    /\ attempts trace = Z.to_nat 45
    /\ (0 <= 45 -> Z.of_nat (attempts trace) = 45).
Proof.
  apply (await_results_timeout never_ready "c0ffee" "cs50/problems/2020/x/hello" 2 45).
  intros k _. left. reflexivity.
Defined.

Lemma scenario_B_not_ready j : (j < 44)%nat -> not_ready (scenario_B j).
Proof.
  intros Hj. unfold scenario_B.
  destruct (Nat.ltb_spec j 44) as [_|?]; [|lia]. left. reflexivity.
Defined.

Lemma scenario_B_ready : ready_response (scenario_B 44).
Proof.
  split; [reflexivity|]. eexists. split; [reflexivity|discriminate].
Defined.

Lemma await_results_first_ready_witness :
  exists trace,
    await_results_from scenario_B "c0ffee" "cs50/problems/2020/x/hello" 45 2
    = (trace, extract (body (scenario_B 44)))
    /\ attempts trace = 45%nat
    /\ last trace = Some (Get "c0ffee" "cs50/problems/2020/x/hello")
    /\ (forall msg, extract (body (scenario_B 44)) <> Py.raise (Py.InternalError msg))
    /\ (forall tag_hash sl rs version,
          complete_results (body (scenario_B 44)) tag_hash sl rs version ->
          extract (body (scenario_B 44))
          = Py.ok (tag_hash,
                   Py.JObj [("slug", sl); ("results", rs); ("version", version)]))
    /\ ((exists tag_hash sl rs version,
           complete_results (body (scenario_B 44)) tag_hash sl rs version
           /\ extract (body (scenario_B 44))
              = Py.ok (tag_hash,
                       Py.JObj [("slug", sl); ("results", rs); ("version", version)]))
        \/ (exists remote_json,
              rejected (body (scenario_B 44)) remote_json
              /\ extract (body (scenario_B 44))
                 = Py.raise (Py.RemoteCheckError remote_json))
        \/ (exists e,
              extract (body (scenario_B 44)) = Py.raise e
              /\ (e = Py.TypeError \/ exists key, e = Py.KeyError key))).
Proof.
  apply (await_results_first_ready scenario_B "c0ffee" "cs50/problems/2020/x/hello"
           2 45 44).
  - lia.
  - exact scenario_B_not_ready.
  - exact scenario_B_ready.
Defined.

(** C6 as stated fails: a first response with status 200 and a timestamp
    whose nested result carries an error makes the poller raise the
    remote-check error instead of returning; and 44 responses 404 followed
    by a response with status 200 and a timestamp, but a null nested result,
    end in the remote-check error as well, after 45 queries. *)
Lemma await_results_ready_but_rejected :
  (ready_response (mkResponse 200 body_with_error)
   /\ await_results (fun _ => mkResponse 200 body_with_error)
        "c0ffee" "cs50/problems/2020/x/hello"
      = ([Get "c0ffee" "cs50/problems/2020/x/hello"],
         Py.raise (Py.RemoteCheckError (Py.JObj [("error", Py.JStr "timeout")]))))
  /\ ((forall j, (j < 44)%nat -> status_code (scenario_B_null j) = 404)
      /\ ready_response (scenario_B_null 44)
      /\ snd (await_results scenario_B_null "c0ffee" "cs50/problems/2020/x/hello")
         = Py.raise (Py.RemoteCheckError body_with_null_result)
      /\ attempts (fst (await_results scenario_B_null
                          "c0ffee" "cs50/problems/2020/x/hello")) = 45%nat).
Proof.
  assert (Hready : forall b,
            Py.getitem b "received_at" = Py.ok (Py.JStr "2020-01-01T00:00:00Z") ->
            ready_response (mkResponse 200 b)).
  { intros b Hb. split; [reflexivity|]. eexists. split; [exact Hb|discriminate]. }
  split_and!.
  - apply Hready. reflexivity.
  - vm_compute. reflexivity.
  - intros j Hj. unfold scenario_B_null.
    destruct (Nat.ltb_spec j 44) as [_|?]; [reflexivity|lia].
  - apply Hready. reflexivity.
  - vm_compute. reflexivity.
  - vm_compute. reflexivity.
Qed.

(** Scenario B, run: 45 queries, the last one answered by the complete
    body, whose tag hash and payload are returned. *)
Example await_results_scenario_B :
  snd (await_results scenario_B "c0ffee" "cs50/problems/2020/x/hello")
  = Py.ok (Py.JStr "f00d",
           Py.JObj [("slug", Py.JStr "cs50/problems/2020/x/hello");
                    ("results", Py.JArr []);
                    ("version", Py.JStr "3.0.0")])
  /\ attempts (fst (await_results scenario_B "c0ffee" "cs50/problems/2020/x/hello"))
     = 45%nat.
Proof. split; vm_compute; reflexivity. Qed.

(** C7 as stated fails: a ready response without the nested result makes
    the poller raise a key error, not the remote-check error; and a ready
    response whose nested result has no error field but lacks its results
    yields neither the remote-check error nor a payload. *)
Lemma await_results_lookup_errors :
  (ready_response (mkResponse 200 body_without_check50)
   /\ Py.lookup_field "check50" [("received_at", Py.JStr "2020-01-01T00:00:00Z");
                                 ("tag_hash", Py.JStr "f00d")] = None
   /\ snd (await_results (fun _ => mkResponse 200 body_without_check50)
             "c0ffee" "cs50/problems/2020/x/hello")
      = Py.raise (Py.KeyError "check50"))
  /\ (ready_response (mkResponse 200 body_without_results)
      /\ snd (await_results (fun _ => mkResponse 200 body_without_results)
                "c0ffee" "cs50/problems/2020/x/hello")
         = Py.raise (Py.KeyError "results")).
Proof.
  assert (Hready : forall b,
            Py.getitem b "received_at" = Py.ok (Py.JStr "2020-01-01T00:00:00Z") ->
            ready_response (mkResponse 200 b)).
  { intros b Hb. split; [reflexivity|]. eexists. split; [exact Hb|discriminate]. }
  split_and!; try (apply Hready; reflexivity); vm_compute; reflexivity.
Qed.

Lemma await_results_remote_check_error_witness :
  snd (await_results_from (fun _ => mkResponse 500 (Py.JStr "Internal Server Error"))
         "c0ffee" "cs50/problems/2020/x/hello" 45 2)
  = Py.raise (Py.RemoteCheckError (Py.JStr "Internal Server Error")).
Proof.
  apply (await_results_remote_check_error
           (fun _ => mkResponse 500 (Py.JStr "Internal Server Error"))
           "c0ffee" "cs50/problems/2020/x/hello" 2 45).
  exists 0%nat. split.
  - split; [lia|]. intros j Hj. lia.
  - left. split; [|reflexivity]. simpl.
    intros [[=]|[[=]|[]%elem_of_nil]%elem_of_cons]%elem_of_cons.
Defined.

(** ** The error hook *)

Section Excepthook.

Variable version : string.
Variable st : HookState.
Variable exc : ExcInfo.

Implicit Types (outputs taken pre rest : list string)
  (events : list hook_event) (fuel i : nat).

Lemma remove_length x outputs :
  (length (Py.remove x outputs) <= length outputs)%nat.
Proof.
  induction outputs as [|y t IH]; simpl; [done|].
  destruct (decide (x = y)); simpl; lia.
Qed.

Lemma remove_middle x pre rest :
  x ∉ pre -> Py.remove x (pre ++ x :: rest) = pre ++ rest.
Proof.
  induction pre as [|y pre IH]; simpl; intros Hx.
  - by rewrite decide_True.
  - apply not_elem_of_cons in Hx as [Hne Hx].
    rewrite decide_False by done. by rewrite IH.
Qed.

(** The loop ends: every turn shortens the list and advances the
    iterator. *)
Lemma hook_loop_terminates fuel i outputs taken events :
  (length outputs - i < fuel)%nat ->
  is_Some (hook_loop version st exc fuel i outputs taken events).
Proof.
  revert i outputs taken events.
  induction fuel as [|fuel IH]; intros i outputs taken events Hfuel; [lia|].
  simpl. destruct (outputs !! i) as [output|] eqn:Hi; [|done].
  destruct (service version st exc output); [|done].
  apply IH. apply lookup_lt_Some in Hi.
  pose proof (remove_length output outputs). lia.
Qed.

Lemma excepthook_terminates : is_Some (excepthook version st exc).
Proof. apply hook_loop_terminates. lia. Qed.

Lemma service_handled output :
  handled exc = true ->
  service version st exc output = Continue (service_events version st exc output).
Proof.
  unfold service_events, service, terminal_channel, handled.
  intros Hh.
  destruct (bool_decide (output = "json")); [done|].
  destruct (orb (bool_decide (output = "ansi")) (bool_decide (output = "html")));
    [|done].
  destruct (andb (orb (is_internal_error exc) (is_lib50_error exc)) (has_args exc));
    [done|].
  destruct (is_file_not_found exc); [done|].
  destruct (is_keyboard_interrupt exc); [done|].
  destruct (is_exception exc); done.
Qed.


(** With distinct channels the loop, at position [length pre] of
    [pre ++ rest], services every other channel of [rest] and leaves the
    ones in between in the list. *)
Lemma hook_loop_skips fuel pre rest taken events :
  handled exc = true ->
  NoDup (pre ++ rest) ->
  (length rest < fuel)%nat ->
  hook_loop version st exc fuel (length pre) (pre ++ rest) taken events
  = Some (mkHookRun (taken ++ evens rest)
            (events ++ concat (map (service_events version st exc) (evens rest)))
            (pre ++ odds rest) (Exit 1)).
Proof.
  intros Hh. revert pre rest taken events.
  induction fuel as [|fuel IH]; intros pre rest taken events Hnd Hfuel; [lia|].
  simpl. rewrite lookup_app_r, Nat.sub_diag by lia.
  destruct rest as [|x rest]; simpl.
  { by rewrite !app_nil_r. }
  apply NoDup_app in Hnd as (Hpre & Hdisj & Hrest).
  rewrite remove_middle by (intros Hx; apply (Hdisj x Hx); by left).
  rewrite service_handled by done.
  destruct rest as [|y rest]; simpl.
  - destruct fuel as [|fuel]; simpl in *; [lia|].
    rewrite !app_nil_r, lookup_ge_None_2 by lia. done.
  - replace (pre ++ y :: rest) with ((pre ++ [y]) ++ rest)
      by (by rewrite <- app_assoc).
    replace (S (length pre)) with (length (pre ++ [y]))
      by (rewrite length_app; simpl; lia).
    rewrite IH.
    + by rewrite <- !app_assoc.
    + rewrite <- app_assoc. simpl. apply NoDup_app. split_and!; [done| |].
      * intros z Hz. specialize (Hdisj z Hz).
        intros Hin. apply Hdisj. by right.
      * by apply NoDup_cons_1_2 in Hrest.
    + simpl in Hfuel. lia.
Qed.

(** From the start: the channels at even positions are serviced, those
    at odd positions are skipped and stay in the list. *)
Lemma excepthook_skips :
  handled exc = true ->
  NoDup (hook_outputs st) ->
  excepthook version st exc
  = Some (mkHookRun (evens (hook_outputs st))
            (concat (map (service_events version st exc) (evens (hook_outputs st))))
            (odds (hook_outputs st)) (Exit 1)).
Proof.
  intros Hh Hnd. unfold excepthook.
  apply (hook_loop_skips _ [] (hook_outputs st) [] []); [done|done|lia].
Qed.

Lemma service_lets_go output :
  service version st exc output = LetGo ->
  handled exc = false /\ (output = "ansi" \/ output = "html").
Proof.
  unfold service, terminal_channel, handled.
  destruct (bool_decide (output = "json")); [done|].
  destruct (bool_decide (output = "ansi")) eqn:Hansi;
    [apply bool_decide_eq_true in Hansi|
     destruct (bool_decide (output = "html")) eqn:Hhtml;
       [apply bool_decide_eq_true in Hhtml|done]]; simpl;
    (destruct (andb (orb (is_internal_error exc) (is_lib50_error exc)) (has_args exc));
       [done|]);
    (destruct (is_file_not_found exc); [done|]);
    (destruct (is_keyboard_interrupt exc); [done|]);
    (destruct (is_exception exc); [done|]); auto.
Qed.

(** However the loop ends, it is by [sys.exit(1)] or by the early
    [return], and the latter only on a terminal or document channel. *)
Lemma hook_loop_outcome fuel i outputs taken events run :
  hook_loop version st exc fuel i outputs taken events = Some run ->
  outcome run = Exit 1
  \/ (outcome run = Return
      /\ handled exc = false
      /\ exists output,
           last (serviced run) = Some output
           /\ (output = "ansi" \/ output = "html")).
Proof.
  revert i outputs taken events.
  induction fuel as [|fuel IH]; intros i outputs taken events; simpl; [done|].
  destruct (outputs !! i) as [output|]; [|intros [= <-]; by left].
  destruct (service version st exc output) as [evs|] eqn:Hs; [apply IH|].
  intros [= <-]. right. simpl.
  destruct (service_lets_go _ Hs) as [Hh Hout].
  split_and!; [done|done|]. exists output. by rewrite last_snoc.
Qed.


End Excepthook.



(** C2, on the code: with the channels [ansi, json] and a domain error, the
    hook services the terminal channel only; [json] stays in the list, no
    JSON document is written, and the hook exits. *)
Theorem excepthook_skips_json :
  excepthook "3.0.0" (hook_for ["ansi"; "json"]) (domain_error "failed to install dependencies")
  = Some (mkHookRun ["ansi"] [CPrintStderr "failed to install dependencies"]
            ["json"] (Exit 1))
  /\ forall run,
       excepthook "3.0.0" (hook_for ["ansi"; "json"])
         (domain_error "failed to install dependencies") = Some run ->
       ("json" ∉ serviced run) /\ filter (fun e => is_json_dump e = true) (emitted run) = [].
Proof.
  assert (H : excepthook "3.0.0" (hook_for ["ansi"; "json"])
                (domain_error "failed to install dependencies")
              = Some (mkHookRun ["ansi"] [CPrintStderr "failed to install dependencies"]
                        ["json"] (Exit 1))) by (vm_compute; reflexivity).
  split; [exact H|]. intros run Hrun. rewrite H in Hrun.
  injection Hrun as <-. simpl. split; [|done].
  intros [[=]|[]%elem_of_nil]%elem_of_cons.
Qed.

(** ** The invalid-slug message *)

Section RaiseInvalidSlug.

Variable get_local_slugs : string -> list string.

Lemma string_app_assoc (s1 s2 s3 : string) :
  (s1 +:+ s2) +:+ s3 = s1 +:+ (s2 +:+ s3).
Proof.
  induction s1 as [|c s1 IH]; [done|].
  change (String c (s1 +:+ s2) +:+ s3 = String c (s1 +:+ s2 +:+ s3)).
  change (String c ((s1 +:+ s2) +:+ s3) = String c (s1 +:+ s2 +:+ s3)).
  by rewrite IH.
Qed.

Lemma string_app_nil_r (s : string) : s +:+ "" = s.
Proof.
  induction s as [|c s IH]; [done|].
  change (String c (s +:+ "") = String c s). by rewrite IH.
Qed.

Lemma concat_cons (x : string) (l : list string) :
  String.concat "" (x :: l) = x +:+ String.concat "" l.
Proof. destruct l; cbn; [by rewrite string_app_nil_r|done]. Qed.

(** The loop that appends one line per similar slug. *)
Lemma append_lines (msg : string) (shown : list string) :
  foldl (fun msg similar_slug => msg +:+ Py.nl +:+ "    " +:+ similar_slug)
    msg shown
  = msg +:+ String.concat "" (suggestion_lines shown).
Proof.
  revert msg. induction shown as [|x t IH]; intros msg.
  - cbn. by rewrite string_app_nil_r.
  - cbn [foldl]. rewrite IH. unfold suggestion_lines. cbn [map].
    rewrite concat_cons. by rewrite !string_app_assoc.
Qed.

(** C10: the message of the error raised for an invalid slug is the
    "could not find" sentence, then the suggestion list of the first three
    similar slugs at most, however many the search returns, then the
    offline hint if asked for; when the search returns none, nothing stands
    between the sentence and the hint. *)
Theorem raise_invalid_slug_suggestions (slug : string) (offline : bool) :
  exists shown,
    shown = take 3 (get_local_slugs slug)
    /\ (length shown <= 3)%nat
    /\ length (suggestion_lines shown) = Nat.min 3 (length (get_local_slugs slug))
    /\ raise_invalid_slug get_local_slugs slug offline
       = Py.raise (Py.InternalError
                     (not_found_message slug +:+ suggestion_block shown
                      +:+ (if offline then offline_hint else "")))
    /\ (get_local_slugs slug = [] ->
        raise_invalid_slug get_local_slugs slug offline
        = Py.raise (Py.InternalError
                      (not_found_message slug
                       +:+ (if offline then offline_hint else "")))).
Proof.
  exists (take 3 (get_local_slugs slug)).
  assert (Hmsg : raise_invalid_slug get_local_slugs slug offline
       = Py.raise (Py.InternalError
                     (not_found_message slug
                      +:+ suggestion_block (take 3 (get_local_slugs slug))
                      +:+ (if offline then offline_hint else "")))).
  { unfold raise_invalid_slug, suggestion_block.
    destruct (take 3 (get_local_slugs slug)) as [|x t] eqn:Htake.
    - destruct offline; cbn [String.append];
        by rewrite ?string_app_nil_r.
    - rewrite append_lines.
      destruct offline; by rewrite ?string_app_nil_r, !string_app_assoc. }
  split_and!.
  - done.
  - rewrite length_take. lia.
  - unfold suggestion_lines. by rewrite length_map, length_take.
  - exact Hmsg.
  - intros Hnone. rewrite Hmsg, Hnone. cbn [take suggestion_block].
    done.
Qed.

(** The message does not depend on what the search returns beyond its
    first three results. *)
Lemma raise_invalid_slug_first_three (other : string -> list string)
    (slug : string) (offline : bool) :
  take 3 (other slug) = take 3 (get_local_slugs slug) ->
  raise_invalid_slug other slug offline
  = raise_invalid_slug get_local_slugs slug offline.
Proof. unfold raise_invalid_slug. by intros ->. Qed.

End RaiseInvalidSlug.

(** Five similar slugs: three are shown. *)
Example raise_invalid_slug_five :
  raise_invalid_slug (fun _ => ["a/1"; "a/2"; "a/3"; "a/4"; "a/5"]) "a/0" false
  = Py.raise (Py.InternalError
      ("Could not find checks for a/0. Did you mean:"
       +:+ Py.nl +:+ "    a/1" +:+ Py.nl +:+ "    a/2" +:+ Py.nl +:+ "    a/3"
       +:+ Py.nl +:+ "Do refer back to the problem specification if unsure.")).
Proof. vm_compute. reflexivity. Qed.

(** No similar slug: no suggestion list. *)
Example raise_invalid_slug_none :
  raise_invalid_slug (fun _ => []) "a/0" false
  = Py.raise (Py.InternalError "Could not find checks for a/0.").
Proof. vm_compute. reflexivity. Qed.


(** * Further properties *)

(** ** More on the option resolver *)

Ltac fields :=
  cbn [slug dev offline local output target output_file verbose log_level
       ansi_log no_download_checks no_install_dependencies ansi_output
       Py.bind Py.ok Py.raise log_level_upper fst snd orb andb
       set_offline set_verbose set_ansi_output set_no_install_dependencies
       set_no_download_checks set_local set_log_level set_output
       set_ansi_log].

Section ValidateArgsMore.

Implicit Types (a p : Namespace) (w : list log_event) (l : LogLevel).

(** The resolver as one equation: the failure on the log level, or the
    plan and the log. *)
Lemma validate_args_eq a :
  validate_args a
  = match log_level a with
    | Level _ => Py.raise Py.AttributeError
    | LevelName s =>
        match LogLevel_members (Py.upper s) with
        | inl e => Py.raise e
        | inr l => Py.ok (resolved_plan l a, resolution_log l a)
        end
    end.
Proof.
  unfold validate_args. rewrite apply_rules_closed.
  destruct a as [sl dv off loc out tg ofile vb lv al ndl nid ao]. fields.
  destruct lv as [s|l']; fields; [|done].
  destruct (LogLevel_members (Py.upper s)) as [e|l]; fields; [done|].
  pose proof (filter_duplicates_seen out) as Hseen.
  destruct (filter_duplicates out) as [seen ws] eqn:Hfd. cbn [fst] in Hseen.
  fields. subst seen.
  unfold ansi_log_step, resolved_plan, resolution_log, ansi_log_warning,
    useless_args_warning.
  fields. rewrite contains_first_occurrences, Hfd. fields.
  generalize (Py.contains "ansi" out). intros b.
  generalize (setup_logging l). intros e0.
  destruct b, (level_value l <=? level_value INFO)%Z, al; fields;
    rewrite <- ?app_assoc, ?app_nil_r; reflexivity.
Qed.

Lemma LogLevel_members_ok key l :
  LogLevel_members key = Py.ok l <-> key = level_name l.
Proof.
  split.
  - unfold LogLevel_members, Py.ok, Py.raise.
    repeat case_decide; intros [= <-]; done.
  - intros ->. apply LogLevel_members_name.
Qed.

Lemma LogLevel_members_raise key e :
  LogLevel_members key = Py.raise e ->
  e = Py.KeyError key /\ forall l, key <> level_name l.
Proof.
  unfold LogLevel_members, Py.ok, Py.raise.
  repeat case_decide; intros [= <-]. split; [done|]. by intros [].
Qed.

Lemma resolved_plan_set_log_level l f a :
  resolved_plan l (set_log_level f a) = resolved_plan l a.
Proof. by destruct a. Qed.

Lemma resolution_log_set_log_level l f a :
  resolution_log l (set_log_level f a) = resolution_log l a.
Proof. by destruct a. Qed.

Lemma validate_args_ok_log a p w :
  validate_args a = Py.ok (p, w) ->
  exists l, p = resolved_plan l a /\ w = resolution_log l a.
Proof.
  rewrite validate_args_eq. unfold Py.ok, Py.raise.
  destruct (log_level a) as [s|l']; [|done].
  destruct (LogLevel_members (Py.upper s)) as [e|l]; [done|].
  intros [= <- <-]. by exists l.
Qed.

Lemma level_at_most_info l :
  (level_value l <=? level_value INFO)%Z = true <-> l = DEBUG \/ l = INFO.
Proof.
  destruct l; simpl; split; intros H; try done;
    try (by left); try (by right); by destruct H.
Qed.

Lemma useless_args_warning_cases a :
  (local a = false
   /\ (no_download_checks a = true \/ no_install_dependencies a = true)
   /\ exists flags,
        useless_args_warning a
        = [LogWarning ("You should always use --local when using: " +:+ flags)])
  \/ (~ (local a = false
        /\ (no_download_checks a = true \/ no_install_dependencies a = true))
     /\ useless_args_warning a = []).
Proof.
  unfold useless_args_warning.
  destruct (local a), (no_download_checks a), (no_install_dependencies a);
    cbn [app];
    first [ left; split_and!; [done|by auto|by eexists]
          | right; split; [intros [? [?|?]]; done|done] ].
Qed.

Lemma duplicates_only_warn (o : list string) :
  Forall (fun e => exists x, e = duplicate_warning x) (snd (filter_duplicates o)).
Proof. apply filter_step_only_warnings. constructor. Qed.

(** Which warnings can be told apart by their first character. *)
Lemma local_warning_not_duplicate flags x :
  LogWarning ("You should always use --local when using: " +:+ flags)
  <> duplicate_warning x.
Proof. unfold duplicate_warning. cbv [String.append]. discriminate. Qed.

Lemma ansi_log_warning_not_duplicate x :
  LogWarning "--ansi-log has no effect when ansi is not among the output formats"
  <> duplicate_warning x.
Proof. unfold duplicate_warning. cbv [String.append]. discriminate. Qed.

(** X1: the resolver leaves the slug, the developer flag, the target and
    the output file as they are, and never clears a flag that was set. *)
Theorem validate_args_keeps_options a p w :
  validate_args a = Py.ok (p, w) ->
  slug p = slug a /\ dev p = dev a /\ target p = target a
  /\ output_file p = output_file a
  /\ (offline a = true -> offline p = true)
  /\ (verbose a = true -> verbose p = true)
  /\ (local a = true -> local p = true)
  /\ (no_download_checks a = true -> no_download_checks p = true)
  /\ (no_install_dependencies a = true -> no_install_dependencies p = true)
  /\ (ansi_log a = true -> ansi_log p = true).
Proof.
  intros (l & -> & _)%validate_args_ok_log.
  unfold resolved_plan. fields.
  split_and!; try done; intros ->; rewrite ?orb_true_r; try done.
  by destruct (_ && _).
Qed.

(** X2: on a log level given as an ASCII string the resolver fails exactly
    when the upper-cased string is not the name of a level, with a
    [KeyError] on that upper-cased string; otherwise the plan holds the
    level so named. *)
Theorem validate_args_level_name a s :
  log_level a = LevelName s ->
  ascii_only s = true ->
  (exists l p w,
     Py.upper s = level_name l
     /\ validate_args a = Py.ok (p, w) /\ log_level p = Level l)
  \/ ((forall l, Py.upper s <> level_name l)
      /\ validate_args a = Py.raise (Py.KeyError (Py.upper s))).
Proof.
  intros Hs _. rewrite validate_args_eq, Hs.
  destruct (LogLevel_members (Py.upper s)) as [e|l] eqn:Hm.
  - right. apply LogLevel_members_raise in Hm as [-> Hno]. done.
  - left. apply LogLevel_members_ok in Hm. by eexists l, _, _.
Qed.

(** X3: between ASCII strings the spelling of the log level matters up to
    case only. *)
Theorem validate_args_case_insensitive a s1 s2 :
  ascii_only s1 = true ->
  ascii_only s2 = true ->
  Py.upper s1 = Py.upper s2 ->
  validate_args (set_log_level (LevelName s1) a)
  = validate_args (set_log_level (LevelName s2) a).
Proof.
  intros _ _ Hup. rewrite !validate_args_eq.
  replace (log_level (set_log_level (LevelName s1) a)) with (LevelName s1)
    by (by destruct a).
  replace (log_level (set_log_level (LevelName s2) a)) with (LevelName s2)
    by (by destruct a).
  rewrite Hup. destruct (LogLevel_members (Py.upper s2)); [done|].
  by rewrite !resolved_plan_set_log_level, !resolution_log_set_log_level.
Qed.

(** X4: the warning about options that need [--local] is logged exactly
    when the resolved plan is remote and skips the download of checks or the
    installation of dependencies; never in developer or offline mode. *)
Theorem validate_args_local_warning a p w :
  validate_args a = Py.ok (p, w) ->
  (local_warning_logged w
   <-> local p = false
       /\ (no_download_checks p = true \/ no_install_dependencies p = true))
  /\ (dev a = true \/ offline a = true -> ~ local_warning_logged w).
Proof.
  intros (l & -> & ->)%validate_args_ok_log.
  assert (Hiff : local_warning_logged (resolution_log l a)
                 <-> local (resolved_plan l a) = false
                     /\ (no_download_checks (resolved_plan l a) = true
                         \/ no_install_dependencies (resolved_plan l a) = true)).
  { unfold local_warning_logged, resolution_log.
    destruct (useless_args_warning_cases (resolved_plan l a))
      as [(Hloc & Hflag & flags & ->)|[Hno ->]].
    - split; [done|]. intros _. exists flags. right. by left.
    - split; [|done]. intros [flags Hin].
      apply elem_of_cons in Hin as [Hin|Hin]; [done|].
      cbn [app] in Hin. apply elem_of_app in Hin as [Hin|Hin].
      + pose proof (duplicates_only_warn (output a)) as Hall.
        rewrite Forall_forall in Hall. destruct (Hall _ Hin) as [x Hx].
        by apply local_warning_not_duplicate in Hx.
      + unfold ansi_log_warning in Hin.
        destruct (Py.contains "ansi" (output a)), (ansi_log a);
          try by apply elem_of_nil in Hin.
        apply list_elem_of_singleton in Hin. revert Hin.
        cbv [String.append]. discriminate. }
  split; [done|]. intros Hmode. rewrite Hiff. intros [Hloc _].
  revert Hloc. unfold resolved_plan. fields. by destruct Hmode as [-> | ->];
    rewrite ?orb_true_r.
Qed.

(** X5: the resolved plan interleaves the log into the terminal output
    exactly when this was asked for or the terminal channel is among the
    outputs and the level is DEBUG or INFO; the warning that [--ansi-log] has
    no effect is logged exactly when it was asked for without the terminal
    channel. *)
Theorem validate_args_ansi_log a p w :
  validate_args a = Py.ok (p, w) ->
  exists l,
    log_level p = Level l
    /\ (ansi_log p = true
        <-> ansi_log a = true \/ ("ansi" ∈ output a /\ (l = DEBUG \/ l = INFO)))
    /\ (LogWarning "--ansi-log has no effect when ansi is not among the output formats" ∈ w
        <-> ("ansi" ∉ output a) /\ ansi_log a = true).
Proof.
  intros (l & -> & ->)%validate_args_ok_log. exists l.
  split; [done|]. split.
  - unfold resolved_plan. fields.
    destruct (Py.contains "ansi" (output a)) eqn:Hansi; fields.
    + apply contains_true in Hansi.
      destruct (level_value l <=? level_value INFO)%Z eqn:Hl.
      * apply level_at_most_info in Hl. naive_solver.
      * split; [by left|]. intros [?|[_ Hl']]; [done|].
        apply level_at_most_info in Hl'. congruence.
    + apply contains_false in Hansi. naive_solver.
  - unfold resolution_log. rewrite elem_of_cons, !elem_of_app.
    unfold ansi_log_warning.
    destruct (Py.contains "ansi" (output a)) eqn:Hansi;
      [apply contains_true in Hansi|apply contains_false in Hansi].
    all: split.
    all: try (intros [Hin|[Hin|[Hin|Hin]]]).
    all: try done.
    all: try (destruct (useless_args_warning_cases (resolved_plan l a))
                as [(_ & _ & flags & Hu)|[_ Hu]]; rewrite Hu in Hin;
              [apply list_elem_of_singleton in Hin; revert Hin;
               cbv [String.append]; discriminate
              |by apply elem_of_nil in Hin]).
    all: try (pose proof (duplicates_only_warn (output a)) as Hall;
              rewrite Forall_forall in Hall; destruct (Hall _ Hin) as [x Hx];
              by apply ansi_log_warning_not_duplicate in Hx).
    all: try (by apply elem_of_nil in Hin).
    + intros [? _]. done.
    + destruct (ansi_log a); [done|by apply elem_of_nil in Hin].
    + intros [_ ->]. right; right; right. by left.
Qed.

(** X6: a successful resolution sets up logging exactly once, first of
    all, at the resolved level, and disables the progress bar exactly for
    DEBUG and INFO. *)
Theorem validate_args_sets_up_logging a p w :
  validate_args a = Py.ok (p, w) ->
  exists l w',
    log_level p = Level l
    /\ w = SetupLogging l (bool_decide (l = DEBUG \/ l = INFO)) :: w'
    /\ Forall (fun e => is_setup_logging e = false) w'.
Proof.
  intros (l & -> & ->)%validate_args_ok_log.
  exists l, (useless_args_warning (resolved_plan l a)
             ++ snd (filter_duplicates (output a)) ++ ansi_log_warning a).
  split_and!; [done| |].
  - unfold resolution_log. f_equal. by destruct l.
  - rewrite !Forall_app. split_and!.
    + destruct (useless_args_warning_cases (resolved_plan l a))
        as [(_ & _ & flags & ->)|[_ ->]]; by repeat constructor.
    + eapply Forall_impl; [apply duplicates_only_warn|].
      by intros e [x ->].
    + unfold ansi_log_warning.
      destruct (Py.contains "ansi" (output a)), (ansi_log a);
        by repeat constructor.
Qed.

Lemma occurrences_NoDup {A} `{EqDecision A} (x : A) (l : list A) :
  NoDup l -> (occurrences x l <= 1)%nat.
Proof.
  induction 1 as [|y t Hy _ IH]; [unfold occurrences; simpl; lia|].
  rewrite occurrences_cons. destruct (decide (y = x)) as [->|]; [|lia].
  rewrite occurrences_zero by done. lia.
Qed.

Lemma validate_args_ok_duplicate_warnings a p w x :
  validate_args a = Py.ok (p, w) ->
  occurrences (duplicate_warning x) w = (occurrences x (output a) - 1)%nat.
Proof.
  intros Hok. pose proof (validate_args_inv a) as H.
  destruct (log_level a) as [s|l']; [|by rewrite H in Hok].
  destruct (LogLevel_members (Py.upper s)) as [e|l]; [by rewrite H in Hok|].
  destruct H as (pre & post & H & Hpre & Hpost). rewrite H in Hok.
  unfold Py.ok in Hok. injection Hok as <- <-.
  rewrite !(occurrences_app (duplicate_warning x)), Hpre, Hpost.
  rewrite filter_duplicates_warnings. lia.
Qed.

(** X7: when the output channels given are distinct the resolver keeps
    them as they are and logs no duplicate warning. *)
Theorem validate_args_distinct_output a p w :
  validate_args a = Py.ok (p, w) ->
  NoDup (output a) ->
  output p = output a /\ forall x, duplicate_warning x ∉ w.
Proof.
  intros Hok Hnd. split.
  - apply validate_args_ok_log in Hok as (l & -> & _).
    by apply first_occurrences_id.
  - intros x Hin%occurrences_pos.
    rewrite (validate_args_ok_duplicate_warnings a p w x Hok) in Hin.
    pose proof (occurrences_NoDup x (output a) Hnd). lia.
Qed.

(** X8: the first output channel given stays the first of the resolved
    plan, which has no more channels than were given and at least one if any
    was given. *)
Theorem validate_args_first_channel a p w :
  validate_args a = Py.ok (p, w) ->
  head (output p) = head (output a)
  /\ (length (output p) <= length (output a))%nat
  /\ (output a <> [] -> output p <> []).
Proof.
  intros (l & -> & _)%validate_args_ok_log. unfold resolved_plan. fields.
  split_and!.
  - by destruct (output a).
  - apply sublist_length, first_occurrences_sublist.
  - by destruct (output a).
Qed.

End ValidateArgsMore.

Lemma validate_args_sample :
  validate_args sample_args = Py.ok (sample_plan, sample_log).
Proof. vm_compute. reflexivity. Defined.

Lemma validate_args_keeps_options_witness :
  slug sample_plan = slug sample_args /\ dev sample_plan = dev sample_args
  /\ target sample_plan = target sample_args
  /\ output_file sample_plan = output_file sample_args
  /\ (offline sample_args = true -> offline sample_plan = true)
  /\ (verbose sample_args = true -> verbose sample_plan = true)
  /\ (local sample_args = true -> local sample_plan = true)
  /\ (no_download_checks sample_args = true -> no_download_checks sample_plan = true)
  /\ (no_install_dependencies sample_args = true ->
      no_install_dependencies sample_plan = true)
  /\ (ansi_log sample_args = true -> ansi_log sample_plan = true).
Proof.
  apply (validate_args_keeps_options sample_args sample_plan sample_log).
  vm_compute. reflexivity.
Defined.

Lemma validate_args_level_name_witness :
  (exists l p w,
     Py.upper "info" = level_name l
     /\ validate_args sample_args = Py.ok (p, w) /\ log_level p = Level l)
  \/ ((forall l, Py.upper "info" <> level_name l)
      /\ validate_args sample_args = Py.raise (Py.KeyError (Py.upper "info"))).
Proof.
  apply (validate_args_level_name sample_args "info"); reflexivity.
Defined.

Lemma validate_args_case_insensitive_witness :
  validate_args (set_log_level (LevelName "info") sample_args)
  = validate_args (set_log_level (LevelName "Info") sample_args).
Proof.
  apply (validate_args_case_insensitive sample_args "info" "Info");
    vm_compute; reflexivity.
Defined.

Lemma validate_args_local_warning_witness :
  (local_warning_logged sample_log
   <-> local sample_plan = false
       /\ (no_download_checks sample_plan = true
           \/ no_install_dependencies sample_plan = true))
  /\ (dev sample_args = true \/ offline sample_args = true ->
      ~ local_warning_logged sample_log).
Proof.
  apply (validate_args_local_warning sample_args sample_plan sample_log).
  vm_compute. reflexivity.
Defined.

Lemma validate_args_ansi_log_witness :
  exists l,
    log_level sample_plan = Level l
    /\ (ansi_log sample_plan = true
        <-> ansi_log sample_args = true
            \/ ("ansi" ∈ output sample_args /\ (l = DEBUG \/ l = INFO)))
    /\ (LogWarning "--ansi-log has no effect when ansi is not among the output formats"
          ∈ sample_log
        <-> ("ansi" ∉ output sample_args) /\ ansi_log sample_args = true).
Proof.
  apply (validate_args_ansi_log sample_args sample_plan sample_log).
  vm_compute. reflexivity.
Defined.

Lemma validate_args_sets_up_logging_witness :
  exists l w',
    log_level sample_plan = Level l
    /\ sample_log = SetupLogging l (bool_decide (l = DEBUG \/ l = INFO)) :: w'
    /\ Forall (fun e => is_setup_logging e = false) w'.
Proof.
  apply (validate_args_sets_up_logging sample_args sample_plan sample_log).
  vm_compute. reflexivity.
Defined.

Lemma validate_args_distinct_output_witness :
  output (resolved_plan WARNING (default_args "cs50/problems/2020/x/hello"))
  = output (default_args "cs50/problems/2020/x/hello")
  /\ forall x,
       duplicate_warning x
       ∉ resolution_log WARNING (default_args "cs50/problems/2020/x/hello").
Proof.
  apply (validate_args_distinct_output (default_args "cs50/problems/2020/x/hello")
           (resolved_plan WARNING (default_args "cs50/problems/2020/x/hello"))
           (resolution_log WARNING (default_args "cs50/problems/2020/x/hello"))).
  - vm_compute. reflexivity.
  - apply (bool_decide_unpack _). vm_compute. exact I.
Defined.

Lemma validate_args_first_channel_witness :
  head (output sample_plan) = head (output sample_args)
  /\ (length (output sample_plan) <= length (output sample_args))%nat
  /\ (output sample_args <> [] -> output sample_plan <> []).
Proof.
  apply (validate_args_first_channel sample_args sample_plan sample_log).
  vm_compute. reflexivity.
Defined.

(** ** More on the remote poller *)

Section AwaitResultsMore.

Variable server : nat -> Response.
Variables commit_hash slug : string.
Variable sleep : Z.

Implicit Types (n i k : nat) (trace : list poll_event).

Lemma sleeps_app trace1 trace2 :
  sleeps (trace1 ++ trace2) = (sleeps trace1 + sleeps trace2)%nat.
Proof. unfold sleeps. by rewrite filter_app, length_app. Qed.

Lemma sleeps_idle_rounds n :
  sleeps (idle_rounds commit_hash slug sleep n) = n.
Proof.
  induction n as [|n IH]; [done|]. simpl.
  change (sleeps (Get commit_hash slug :: Sleep sleep :: ?t))
    with (S (sleeps t)). by rewrite IH.
Qed.

Lemma idle_rounds_events n :
  Forall (fun e => e = Get commit_hash slug \/ e = Sleep sleep)
    (idle_rounds commit_hash slug sleep n).
Proof.
  induction n as [|n IH]; simpl; [constructor|].
  constructor; [by left|]. constructor; [by right|done].
Qed.

(** X9: whatever the service answers, the poller sends at most [pings]
    queries, all for the same commit and slug, and every pause lasts [sleep];
    it pauses after every query when it times out, and after every query but
    the last otherwise. *)
Theorem await_results_bounded pings :
  let run := await_results_from server commit_hash slug pings sleep in
  (attempts (fst run) <= Z.to_nat pings)%nat
  /\ Forall (fun e => e = Get commit_hash slug \/ e = Sleep sleep) (fst run)
  /\ ((exists msg, snd run = Py.raise (Py.InternalError msg)) ->
      attempts (fst run) = Z.to_nat pings /\ sleeps (fst run) = Z.to_nat pings)
  /\ ((forall msg, snd run <> Py.raise (Py.InternalError msg)) ->
      attempts (fst run) = S (sleeps (fst run))).
Proof.
  cbv zeta. unfold await_results_from.
  destruct (poll server commit_hash slug sleep (Z.to_nat pings) 0 [])
    as [trace exit] eqn:Hp.
  apply poll_inv in Hp. destruct exit as [results|e|]; cbn [fst snd].
  - destruct Hp as (k & Hk & _ & _ & _ & ->). cbn [app].
    rewrite attempts_app, sleeps_app, attempts_idle_rounds, sleeps_idle_rounds.
    change (attempts [Get commit_hash slug]) with 1%nat.
    change (sleeps [Get commit_hash slug]) with 0%nat.
    split_and!; [lia| | |lia].
    + apply Forall_app. split; [apply idle_rounds_events|]. by repeat constructor.
    + intros [msg Hmsg]. by apply extract_not_internal in Hmsg.
  - destruct Hp as (k & Hk & _ & -> & Hcase). cbn [app].
    rewrite attempts_app, sleeps_app, attempts_idle_rounds, sleeps_idle_rounds.
    change (attempts [Get commit_hash slug]) with 1%nat.
    change (sleeps [Get commit_hash slug]) with 0%nat.
    split_and!; [lia| | |lia].
    + apply Forall_app. split; [apply idle_rounds_events|]. by repeat constructor.
    + intros [msg Hmsg]. unfold Py.raise in Hmsg. injection Hmsg as ->.
      destruct Hcase as [[_ [=]]|[_ Hg]].
      apply getitem_raises in Hg as [|]; discriminate.
  - destruct Hp as (_ & ->). cbn [app].
    rewrite attempts_idle_rounds, sleeps_idle_rounds.
    split_and!; [lia|apply idle_rounds_events|done|].
    intros Hno. by destruct (Hno (timeout_message commit_hash)).
Qed.

(** X10: a status-200 response whose body has no ["received_at"] entry
    (or is not an object) ends the polling at that query with the lookup
    error; it is neither waited out nor reported as a remote error. *)
Theorem await_results_missing_timestamp pings k e :
  reached server pings k ->
  status_code (server k) = 200 ->
  Py.getitem (body (server k)) "received_at" = Py.raise e ->
  await_results_from server commit_hash slug pings sleep
  = (idle_rounds commit_hash slug sleep k ++ [Get commit_hash slug], Py.raise e)
  /\ (e = Py.KeyError "received_at" \/ e = Py.TypeError).
Proof.
  intros [Hk Hidle] H200 Hget. split; [|by apply getitem_raises in Hget].
  unfold await_results_from.
  replace (Z.to_nat pings) with (k + S (Z.to_nat pings - S k))%nat by lia.
  rewrite poll_idle by (intros j Hj; apply Hidle; lia).
  assert (Hr : ready (server k) = Py.raise e)
    by (unfold ready; by rewrite H200, Hget).
  simpl. rewrite bool_decide_eq_true_2 by (rewrite H200; set_solver).
  simpl. by rewrite Hr.
Qed.

End AwaitResultsMore.

Section AwaitResultsView.

Variables server server' : nat -> Response.
Variables commit_hash slug : string.
Variable sleep : Z.

Lemma same_view_ready r1 r2 : same_view r1 r2 -> ready r1 = ready r2.
Proof.
  intros [Hst [H404|Hb]]; unfold ready; rewrite <- Hst.
  - by rewrite H404.
  - by rewrite Hb.
Qed.

Lemma poll_same_view n i trace :
  (forall k, (i <= k < i + n)%nat -> same_view (server k) (server' k)) ->
  poll server commit_hash slug sleep n i trace
  = poll server' commit_hash slug sleep n i trace.
Proof.
  revert i trace. induction n as [|n IH]; intros i trace Hview; [done|].
  cbn [poll].
  destruct (Hview i ltac:(lia)) as [Hst Hb].
  rewrite <- (same_view_ready (server i) (server' i)) by done.
  rewrite <- Hst.
  destruct (bool_decide (status_code (server i) ∈ [404; 200])) eqn:Hin; cbn [negb].
  - destruct (ready (server i)) as [e|[|]] eqn:Hr; [done| |].
    + destruct Hb as [H404|Hb]; [|by rewrite Hb].
      unfold ready in Hr. by rewrite H404 in Hr.
    + apply IH. intros k Hk. apply Hview. lia.
  - apply bool_decide_eq_false in Hin.
    destruct Hb as [H404|Hb]; [|by rewrite Hb].
    exfalso. apply Hin. rewrite H404. set_solver.
Qed.

(** X11: among services whose responses all decode as JSON, what a 404
    response decodes to does not matter, nor do the responses beyond the
    [pings]-th: two such services that agree on the status of the first
    [pings] responses, and on the decoded body of those that are not 404,
    get the same queries and the same result. *)
Theorem await_results_same_view pings :
  (forall k, Z.of_nat k < pings -> same_view (server k) (server' k)) ->
  await_results_from server commit_hash slug pings sleep
  = await_results_from server' commit_hash slug pings sleep.
Proof.
  intros Hview. unfold await_results_from.
  rewrite poll_same_view; [done|]. intros k Hk. apply Hview. lia.
Qed.

End AwaitResultsView.

(** X12: the poller ends in one of five ways: with the tag hash and a
    payload of exactly the slug, the results and the version; with the
    remote-check error; with the timeout error naming the commit; or with a
    lookup error. *)
Theorem await_results_outcomes (server : nat -> Response)
    (commit_hash slug : string) (pings sleep : Z) :
  let r := snd (await_results_from server commit_hash slug pings sleep) in
  (exists tag_hash sl rs version,
     r = Py.ok (tag_hash,
                Py.JObj [("slug", sl); ("results", rs); ("version", version)]))
  \/ (exists remote_json, r = Py.raise (Py.RemoteCheckError remote_json))
  \/ r = Py.raise (Py.InternalError (timeout_message commit_hash))
  \/ (exists key, r = Py.raise (Py.KeyError key))
  \/ r = Py.raise Py.TypeError.
Proof.
  cbv zeta. unfold await_results_from.
  destruct (poll server commit_hash slug sleep (Z.to_nat pings) 0 [])
    as [trace exit] eqn:Hp.
  apply poll_inv in Hp. destruct exit as [results|e|]; cbn [snd].
  - destruct (extract_cases results)
      as [(t & sl & rs & v & _ & ->)|[(j & _ & ->)|(e & -> & [->|[key ->]])]].
    + left. by exists t, sl, rs, v.
    + right; left. by exists j.
    + do 4 right. done.
    + do 3 right. left. by exists key.
  - destruct Hp as (k & _ & _ & _ & [[_ ->]|[_ Hg]]).
    + right; left. by eexists.
    + apply getitem_raises in Hg as [-> | ->].
      * do 3 right. left. by eexists.
      * do 4 right. done.
  - right; right; left. done.
Qed.

Lemma await_results_missing_timestamp_witness :
  await_results_from (fun _ => mkResponse 200 (Py.JObj []))
    "c0ffee" "cs50/problems/2020/x/hello" 45 2
  = (idle_rounds "c0ffee" "cs50/problems/2020/x/hello" 2 0
     ++ [Get "c0ffee" "cs50/problems/2020/x/hello"],
     Py.raise (Py.KeyError "received_at"))
  /\ (Py.KeyError "received_at" = Py.KeyError "received_at"
      \/ Py.KeyError "received_at" = Py.TypeError).
Proof.
  apply (await_results_missing_timestamp (fun _ => mkResponse 200 (Py.JObj []))
           "c0ffee" "cs50/problems/2020/x/hello" 2 45 0).
  - split; [lia|]. intros j Hj. lia.
  - reflexivity.
  - reflexivity.
Defined.

Lemma await_results_same_view_witness :
  await_results_from never_ready "c0ffee" "cs50/problems/2020/x/hello" 45 2
  = await_results_from (fun _ => mkResponse 404 (Py.JStr "Not Found"))
      "c0ffee" "cs50/problems/2020/x/hello" 45 2.
Proof.
  apply (await_results_same_view never_ready
           (fun _ => mkResponse 404 (Py.JStr "Not Found"))
           "c0ffee" "cs50/problems/2020/x/hello" 2 45).
  intros k _. split; [reflexivity|]. left. reflexivity.
Defined.

(** ** More on the error hook *)

Section ExcepthookMore.

Variable version : string.
Variable st : HookState.
Variable exc : ExcInfo.

Implicit Types (outputs taken : list string) (events : list hook_event)
  (fuel i : nat).

Lemma remove_perm x outputs : x ∈ outputs -> outputs ≡ₚ x :: Py.remove x outputs.
Proof.
  induction outputs as [|y t IH]; [by intros ?%elem_of_nil|].
  simpl. destruct (decide (x = y)) as [->|Hne]; [done|].
  intros [?|Hx]%elem_of_cons; [done|].
  rewrite (IH Hx) at 1. apply Permutation_swap.
Qed.

(** Every turn of the loop moves one channel from the list to the
    serviced ones. *)
Lemma hook_loop_partition fuel i outputs taken events run :
  hook_loop version st exc fuel i outputs taken events = Some run ->
  serviced run ++ remaining run ≡ₚ taken ++ outputs.
Proof.
  revert i outputs taken events.
  induction fuel as [|fuel IH]; intros i outputs taken events; simpl; [done|].
  destruct (outputs !! i) as [output|] eqn:Hi; [|by intros [= <-]].
  assert (Hperm : (taken ++ [output]) ++ Py.remove output outputs
                  ≡ₚ taken ++ outputs).
  { rewrite <- app_assoc. apply Permutation_app_head. simpl.
    symmetry. apply remove_perm. by eapply list_elem_of_lookup_2. }
  destruct (service version st exc output); [|by intros [= <-]].
  intros Hrun%IH. by rewrite Hrun.
Qed.

Lemma hook_loop_taken fuel i outputs taken events run :
  hook_loop version st exc fuel i outputs taken events = Some run ->
  taken `prefix_of` serviced run.
Proof.
  revert i outputs taken events.
  induction fuel as [|fuel IH]; intros i outputs taken events; simpl; [done|].
  destruct (outputs !! i) as [output|]; [|by intros [= <-]].
  destruct (service version st exc output).
  - intros Hrun%IH. etrans; [|exact Hrun]. by apply prefix_app_r.
  - intros [= <-]. simpl. by apply prefix_app_r.
Qed.

Lemma service_quiet output evs :
  hook_verbose st = false ->
  service version st exc output = Continue evs ->
  Forall (fun e => is_verbose_event e = false) evs.
Proof.
  intros Hv. unfold service, terminal_channel, json_channel, verbose_events.
  rewrite Hv.
  repeat match goal with
    | |- context [if ?b then _ else _] => destruct b
    end; intros [= <-]; by repeat constructor.
Qed.

Lemma hook_loop_quiet fuel i outputs taken events run :
  hook_verbose st = false ->
  Forall (fun e => is_verbose_event e = false) events ->
  hook_loop version st exc fuel i outputs taken events = Some run ->
  Forall (fun e => is_verbose_event e = false) (emitted run).
Proof.
  intros Hv. revert i outputs taken events.
  induction fuel as [|fuel IH]; intros i outputs taken events Hev; simpl; [done|].
  destruct (outputs !! i) as [output|]; [|by intros [= <-]].
  destruct (service version st exc output) as [evs|] eqn:Hs; [|by intros [= <-]].
  apply IH. apply Forall_app. split; [done|]. by eapply service_quiet.
Qed.

(** X13: the hook neither loses nor invents a channel: the channels it
    serviced and those it left in the list are, together, the channels it was
    given; and when these are distinct, no serviced channel is left in the
    list, so that a second entry of the hook cannot service it again. *)
Theorem excepthook_partition :
  exists run,
    excepthook version st exc = Some run
    /\ serviced run ++ remaining run ≡ₚ hook_outputs st
    /\ (NoDup (hook_outputs st) ->
        forall c, c ∈ serviced run -> c ∉ remaining run).
Proof.
  destruct (excepthook_terminates version st exc) as [run Hrun].
  exists run. split; [done|].
  pose proof (hook_loop_partition _ _ _ _ _ _ Hrun) as Hperm.
  simpl in Hperm. split; [done|].
  intros Hnd c Hc Hrem. rewrite <- Hperm in Hnd.
  apply NoDup_app in Hnd as (_ & Hdisj & _). by apply (Hdisj c).
Qed.

(** X14: when neither the terminal nor the document channel is among the
    outputs, the hook exits with status 1 whatever the exception. *)
Theorem excepthook_no_terminal_channel :
  (forall c, c ∈ hook_outputs st -> is_terminal_channel c = false) ->
  exists run, excepthook version st exc = Some run /\ outcome run = Exit 1.
Proof.
  intros Hnone. destruct (excepthook_terminates version st exc) as [run Hrun].
  exists run. split; [done|].
  destruct (hook_loop_outcome _ _ _ _ _ _ _ _ _ Hrun)
    as [?|(_ & _ & output & Hlast & Hterm)]; [done|].
  exfalso.
  assert (Hin : output ∈ hook_outputs st).
  { pose proof (hook_loop_partition _ _ _ _ _ _ Hrun) as Hperm.
    simpl in Hperm. rewrite <- Hperm. apply elem_of_app. left.
    apply last_Some in Hlast as [l' ->]. apply elem_of_app. right. by left. }
  specialize (Hnone _ Hin). unfold is_terminal_channel in Hnone.
  destruct Hterm as [-> | ->]; done.
Qed.

(** What holds of the events of every serviced channel holds of all the
    hook emits. *)
Lemma hook_loop_emitted (P : hook_event -> Prop) fuel i outputs taken events run :
  (forall output evs,
     service version st exc output = Continue evs -> Forall P evs) ->
  Forall P events ->
  hook_loop version st exc fuel i outputs taken events = Some run ->
  Forall P (emitted run).
Proof.
  intros HP. revert i outputs taken events.
  induction fuel as [|fuel IH]; intros i outputs taken events Hev; simpl; [done|].
  destruct (outputs !! i) as [output|]; [|by intros [= <-]].
  destruct (service version st exc output) as [evs|] eqn:Hs; [|by intros [= <-]].
  apply IH. apply Forall_app. split; [done|]. by eapply HP.
Qed.

(** The JSON document of the hook, which does not read [verbose]. *)
Lemma service_json_document output evs :
  service version st exc output = Continue evs ->
  Forall (fun e => is_json_dump e = true ->
                   e = JsonDump (json_sink st) (hook_slug st) (cls_name exc)
                         (exc_str exc) (exc_traceback exc)
                         (match exc_payload exc with
                          | Some payload => payload
                          | None => Py.JObj []
                          end) version) evs.
Proof.
  unfold service, terminal_channel, json_channel, verbose_events.
  repeat match goal with
    | |- context [if ?b then _ else _] => destruct b
    | |- context [match exc_payload exc with _ => _ end] =>
        destruct (exc_payload exc)
    end; intros [= <-]; by repeat constructor.
Qed.

(** X15: without verbose mode the hook neither prints the traceback on the
    terminal nor the exception payload after it; the JSON documents it writes
    carry the formatted traceback and the payload all the same. *)
Theorem excepthook_quiet :
  hook_verbose st = false ->
  exists run,
    excepthook version st exc = Some run
    /\ Forall (fun e => is_verbose_event e = false) (emitted run)
    /\ Forall (fun e => is_json_dump e = true ->
                        e = JsonDump (json_sink st) (hook_slug st) (cls_name exc)
                              (exc_str exc) (exc_traceback exc)
                              (match exc_payload exc with
                               | Some payload => payload
                               | None => Py.JObj []
                               end) version)
         (emitted run).
Proof.
  intros Hv. destruct (excepthook_terminates version st exc) as [run Hrun].
  exists run. split; [done|]. split.
  - by apply (hook_loop_quiet _ _ _ _ _ _ Hv (Forall_nil_2 _) Hrun).
  - eapply hook_loop_emitted; [apply service_json_document|constructor|exact Hrun].
Qed.

Lemma hook_loop_events fuel i outputs taken events run :
  hook_loop version st exc fuel i outputs taken events = Some run ->
  events `prefix_of` emitted run.
Proof.
  revert i outputs taken events.
  induction fuel as [|fuel IH]; intros i outputs taken events; simpl; [done|].
  destruct (outputs !! i) as [output|]; [|by intros [= <-]].
  destruct (service version st exc output) as [evs|]; [|by intros [= <-]].
  intros Hrun%IH. etrans; [|exact Hrun]. by apply prefix_app_r.
Qed.

(** What a known channel gets for an exception with a message: a JSON
    document on the JSON channel, the message on the other two. *)
Lemma service_events_head c :
  handled exc = true ->
  c = "json" \/ c = "ansi" \/ c = "html" ->
  exists e evs,
    service_events version st exc c = e :: evs
    /\ match e with
       | JsonDump _ _ _ _ _ _ _ => c = "json"
       | CPrintStderr _ | CPrintStdout _ => c = "ansi" \/ c = "html"
       | _ => False
       end.
Proof.
  intros Hh Hc. unfold service_events, service, terminal_channel, json_channel.
  unfold handled in Hh.
  destruct Hc as [->|[->| ->]]; cbn [bool_decide decide_rel orb];
    rewrite ?bool_decide_eq_true_2 by done;
    rewrite ?bool_decide_eq_false_2 by done; cbn [orb].
  - by eexists _, _.
  - destruct (andb (orb (is_internal_error exc) (is_lib50_error exc)) (has_args exc));
      [eexists _, _; split; [done|]; by left|].
    destruct (is_file_not_found exc); [eexists _, _; split; [done|]; by left|].
    destruct (is_keyboard_interrupt exc); [eexists _, _; split; [done|]; by left|].
    destruct (is_exception exc); [|done].
    eexists _, _; split; [done|]; by left.
  - destruct (andb (orb (is_internal_error exc) (is_lib50_error exc)) (has_args exc));
      [eexists _, _; split; [done|]; by right|].
    destruct (is_file_not_found exc); [eexists _, _; split; [done|]; by right|].
    destruct (is_keyboard_interrupt exc); [eexists _, _; split; [done|]; by right|].
    destruct (is_exception exc); [|done].
    eexists _, _; split; [done|]; by right.
Qed.

(** X16: for an exception the terminal branch has a message for, the first
    channel of the list gets its output before anything else is emitted: the
    hook's events begin with those of that channel, the first of them being
    the JSON document when the channel is the JSON one and the message when
    it is the terminal or the document one. *)
Theorem excepthook_first_channel c rest :
  handled exc = true ->
  hook_outputs st = c :: rest ->
  c = "json" \/ c = "ansi" \/ c = "html" ->
  exists run e evs,
    excepthook version st exc = Some run
    /\ service_events version st exc c `prefix_of` emitted run
    /\ emitted run = e :: evs
    /\ match e with
       | JsonDump _ _ _ _ _ _ _ => c = "json"
       | CPrintStderr _ | CPrintStdout _ => c = "ansi" \/ c = "html"
       | _ => False
       end.
Proof.
  intros Hh Hout Hc.
  destruct (excepthook_terminates version st exc) as [run Hrun].
  destruct (service_events_head c Hh Hc) as (e & evs & Hev & He).
  assert (Hpre : service_events version st exc c `prefix_of` emitted run).
  { unfold excepthook in Hrun. rewrite Hout in Hrun.
    cbn [hook_loop] in Hrun.
    change ((c :: rest) !! 0%nat) with (Some c) in Hrun. cbn [app] in Hrun.
    rewrite service_handled in Hrun by done.
    by apply hook_loop_events in Hrun. }
  destruct Hpre as [k Hk]. rewrite Hev in Hk.
  exists run, e, (evs ++ k). split_and!; [done| |done|done].
  rewrite Hev, Hk. by exists k.
Qed.

End ExcepthookMore.

(** X17: [main] hands the hook the resolved channels, which are distinct;
    so for an exception with a message the hook services the resolved
    channels at even positions, leaves the others in the list, and exits with
    status 1. *)
Theorem main_hook_services (version : string) (a : Namespace) (exc : ExcInfo) :
  raw_options a ->
  handled exc = true ->
  exists p w run,
    validate_args a = Py.ok (p, w)
    /\ excepthook version (configure_hook p) exc = Some run
    /\ serviced run = evens (first_occurrences (output a))
    /\ remaining run = odds (first_occurrences (output a))
    /\ outcome run = Exit 1.
Proof.
  intros [l Hl] Hh.
  destruct (validate_args_raw a l Hl) as (pre & post & Hok & _).
  eexists _, _, _. split; [exact Hok|].
  rewrite excepthook_skips; [|done|apply first_occurrences_NoDup].
  done.
Qed.

Lemma excepthook_no_terminal_channel_witness :
  exists run,
    excepthook "3.0.0" (hook_for ["json"]) generator_exit = Some run
    /\ outcome run = Exit 1.
Proof.
  apply (excepthook_no_terminal_channel "3.0.0" (hook_for ["json"]) generator_exit).
  intros c [->|[]%elem_of_nil]%elem_of_cons. reflexivity.
Defined.

Lemma excepthook_quiet_witness :
  exists run,
    excepthook "3.0.0" (hook_for ["json"; "html"; "ansi"]) keyboard_interrupt
    = Some run
    /\ Forall (fun e => is_verbose_event e = false) (emitted run)
    /\ Forall (fun e => is_json_dump e = true ->
                        e = JsonDump (json_sink (hook_for ["json"; "html"; "ansi"]))
                              (hook_slug (hook_for ["json"; "html"; "ansi"]))
                              (cls_name keyboard_interrupt)
                              (exc_str keyboard_interrupt)
                              (exc_traceback keyboard_interrupt)
                              (match exc_payload keyboard_interrupt with
                               | Some payload => payload
                               | None => Py.JObj []
                               end) "3.0.0")
         (emitted run).
Proof.
  apply (excepthook_quiet "3.0.0" (hook_for ["json"; "html"; "ansi"])
           keyboard_interrupt).
  reflexivity.
Defined.

Lemma excepthook_first_channel_witness :
  exists run e evs,
    excepthook "3.0.0" (hook_for ["json"; "ansi"]) keyboard_interrupt = Some run
    /\ service_events "3.0.0" (hook_for ["json"; "ansi"]) keyboard_interrupt "json"
       `prefix_of` emitted run
    /\ emitted run = e :: evs
    /\ match e with
       | JsonDump _ _ _ _ _ _ _ => "json" = "json"
       | CPrintStderr _ | CPrintStdout _ => "json" = "ansi" \/ "json" = "html"
       | _ => False
       end.
Proof.
  apply (excepthook_first_channel "3.0.0" (hook_for ["json"; "ansi"])
           keyboard_interrupt "json" ["ansi"]).
  - reflexivity.
  - reflexivity.
  - left. reflexivity.
Defined.

Lemma main_hook_services_witness :
  exists p w run,
    validate_args (default_args "cs50/problems/2020/x/hello") = Py.ok (p, w)
    /\ excepthook "3.0.0" (configure_hook p) keyboard_interrupt = Some run
    /\ serviced run
       = evens (first_occurrences (output (default_args "cs50/problems/2020/x/hello")))
    /\ remaining run
       = odds (first_occurrences (output (default_args "cs50/problems/2020/x/hello")))
    /\ outcome run = Exit 1.
Proof.
  apply (main_hook_services "3.0.0" (default_args "cs50/problems/2020/x/hello")
           keyboard_interrupt).
  - exists WARNING. reflexivity.
  - reflexivity.
Defined.

(** ** The yes/no prompt *)

(** X18: the prompt is shown again for every line that is, in lower case,
    neither a yes nor a no; the first line that is one decides the answer
    (yes for "yes", "ye", "y" and the empty line) and the lines after it are
    left unread; when standard input ends before such a line the prompt ends
    with [EOFError]. *)
Theorem yes_no_prompt_first_recognised (junk : list string) :
  Forall (fun line => recognised (lower line) = false) junk ->
  yes_no_prompt junk = (S (length junk), EOFError, [])
  /\ forall line rest,
       recognised (lower line) = true ->
       yes_no_prompt (junk ++ line :: rest)
       = (S (length junk), Answer (Py.contains (lower line) yes_replies), rest).
Proof.
  induction 1 as [|j junk Hj _ [IHeof IHans]]; simpl.
  - split; [done|]. by intros line rest ->.
  - rewrite Hj, IHeof. split; [done|].
    intros line rest Hline. by rewrite (IHans line rest Hline).
Qed.

Lemma yes_no_prompt_first_recognised_witness :
  yes_no_prompt ["maybe"; "what?"] = (3%nat, EOFError, [])
  /\ forall line rest,
       recognised (lower line) = true ->
       yes_no_prompt (["maybe"; "what?"] ++ line :: rest)
       = (3%nat, Answer (Py.contains (lower line) yes_replies), rest).
Proof.
  apply (yes_no_prompt_first_recognised ["maybe"; "what?"]).
  repeat constructor.
Defined.

(** Upper case and the empty line. *)
Example yes_no_prompt_replies :
  yes_no_prompt ["Sure"; "YES"; "n"] = (2%nat, Answer true, ["n"])
  /\ yes_no_prompt [""] = (1%nat, Answer true, [])
  /\ yes_no_prompt ["No"] = (1%nat, Answer false, []).
Proof. vm_compute. done. Qed.

(** ** The installation of dependencies *)

Lemma write_requirements_from (content : string) (dependencies : list string) :
  foldl (fun content dependency => content +:+ dependency +:+ Py.nl)
    content dependencies
  = content +:+ String.concat "" (map (fun d => d +:+ Py.nl) dependencies).
Proof.
  revert content. induction dependencies as [|d t IH]; intros content.
  - cbn. by rewrite string_app_nil_r.
  - cbn [foldl map]. rewrite IH, concat_cons. by rewrite !string_app_assoc.
Qed.

(** X19: nothing is done for an empty list of dependencies; otherwise the
    requirements file lists the dependencies in order, one per line, [pip]
    is run once on it (quietly unless verbose), and the site packages are
    reloaded exactly when [pip] succeeded, a failure of [pip] being raised
    as the error "failed to install dependencies". *)
Theorem install_dependencies_outcome (env : InstallEnv)
    (dependencies : list string) (verbose : bool) :
  let run := install_dependencies env dependencies verbose in
  let written :=
    WriteRequirements (req_file env)
      (String.concat "" (map (fun d => d +:+ Py.nl) dependencies)) in
  let call := PipInstall (pip_command env) (negb verbose) in
  (dependencies = [] -> run = ([], Py.ok tt))
  /\ (dependencies <> [] ->
      pip_succeeds env (pip_command env) = true ->
      run = ([written; call; ReloadSite], Py.ok tt))
  /\ (dependencies <> [] ->
      pip_succeeds env (pip_command env) = false ->
      run = ([written; call],
             Py.raise (Py.InternalError "failed to install dependencies"))).
Proof.
  cbv zeta.
  assert (Hw : write_requirements dependencies
               = String.concat "" (map (fun d => d +:+ Py.nl) dependencies)).
  { unfold write_requirements. by rewrite write_requirements_from. }
  unfold install_dependencies. rewrite Hw.
  destruct dependencies as [|d t]; split_and!; try done.
  - intros _ ->. done.
  - intros _ ->. done.
Qed.

(** ** The rendering of the results *)

Section Render.

Variable env : RenderEnv.
Variable args : Namespace.
Variable results : Py.json.

Implicit Types (outputs : list string) (temps : nat) (tag_hash : string).

(** X20: when the rendering goes through, the text written to the sink is,
    channel by channel in the order of the plan, the JSON rendering and a
    line feed for the JSON channel, the terminal rendering and a line feed
    for the terminal channel, and nothing for the document channel or an
    unknown one. *)
Theorem render_sink_text tag_hash outputs temps :
  snd (render env args results tag_hash outputs temps) = Rendered ->
  sink_text (fst (render env args results tag_hash outputs temps))
  = String.concat "" (map (channel_text env args results) outputs).
Proof.
  revert temps. induction outputs as [|output rest IH]; intros temps; [done|].
  cbn [render map]. rewrite concat_cons. unfold channel_text at 1.
  destruct (bool_decide (output = "json")) eqn:Hjson.
  { specialize (IH temps).
    destruct (render env args results tag_hash rest temps) as [evs r].
    cbn [fst snd] in *. intros Hr. cbn [sink_text foldr].
    fold (sink_text evs). rewrite IH by done.
    by rewrite !string_app_assoc. }
  destruct (bool_decide (output = "ansi")) eqn:Hansi.
  { specialize (IH temps).
    destruct (render env args results tag_hash rest temps) as [evs r].
    cbn [fst snd] in *. intros Hr. cbn [sink_text foldr].
    fold (sink_text evs). rewrite IH by done.
    by rewrite !string_app_assoc. }
  destruct (bool_decide (output = "html")) eqn:Hhtml; [|apply IH].
  destruct (in_ide env && local args)%bool.
  { destruct (c9_succeeds env (to_html env results)); [|done].
    specialize (IH temps).
    destruct (render env args results tag_hash rest temps) as [evs r].
    cbn [fst snd] in *. intros Hr. cbn [sink_text foldr].
    fold (sink_text evs). by rewrite IH. }
  destruct (local args).
  - specialize (IH (S temps)).
    destruct (render env args results tag_hash rest (S temps)) as [evs r].
    cbn [fst snd] in *. intros Hr. cbn [sink_text foldr].
    fold (sink_text evs). by rewrite IH.
  - specialize (IH temps).
    destruct (render env args results tag_hash rest temps) as [evs r].
    cbn [fst snd] in *. intros Hr. cbn [sink_text foldr].
    fold (sink_text evs). by rewrite IH.
Qed.

(** X21: on a remote run the rendering cannot fail and never renders a
    page: neither the [c9] command nor a temporary file is used, and every
    message about the browser names the hosted page of the tag hash. *)
Theorem render_remote tag_hash outputs temps :
  local args = false ->
  snd (render env args results tag_hash outputs temps) = Rendered
  /\ Forall (fun e => renders_page e = false
                      /\ forall msg, e = CPrintBold msg ->
                           msg = browser_message
                                   ("https://submit.cs50.io/check50/" +:+ tag_hash))
       (fst (render env args results tag_hash outputs temps)).
Proof.
  intros Hloc. revert temps.
  induction outputs as [|output rest IH]; intros temps; [by split|].
  cbn [render]. rewrite Hloc, andb_false_r.
  specialize (IH temps).
  destruct (render env args results tag_hash rest temps) as [evs r].
  cbn [fst snd] in *. destruct IH as [-> IH].
  repeat match goal with
    | |- context [if ?b then _ else _] => destruct b
    end; cbn [fst snd]; (split; [done|]);
    repeat (constructor; [split; [done|by intros msg [= <-]]|]); done.
Qed.

(** X22: on a local run the rendering does not read the tag hash. *)
Theorem render_local_tag_hash tag_hash1 tag_hash2 outputs temps :
  local args = true ->
  render env args results tag_hash1 outputs temps
  = render env args results tag_hash2 outputs temps.
Proof.
  intros Hloc. revert temps.
  induction outputs as [|output rest IH]; intros temps; [done|].
  cbn [render]. rewrite Hloc, andb_true_r.
  rewrite !IH. done.
Qed.

End Render.

Lemma install_dependencies_outcome_witness :
  install_dependencies sample_install_env ["numpy"; "pytest"] false
  = ([WriteRequirements "/tmp/req/requirements.txt"
        (String.concat "" (map (fun d => d +:+ Py.nl) ["numpy"; "pytest"]));
      PipInstall (pip_command sample_install_env) true],
     Py.raise (Py.InternalError "failed to install dependencies")).
Proof.
  apply (install_dependencies_outcome sample_install_env ["numpy"; "pytest"] false).
  - discriminate.
  - reflexivity.
Defined.

Lemma render_sink_text_witness :
  sink_text
    (fst (render sample_render_env sample_plan scenario_B_body "f00d"
            (output sample_plan) 0))
  = String.concat ""
      (map (channel_text sample_render_env sample_plan scenario_B_body)
         (output sample_plan)).
Proof.
  apply (render_sink_text sample_render_env sample_plan scenario_B_body "f00d"
           (output sample_plan) 0).
  vm_compute. reflexivity.
Defined.

Lemma render_remote_witness :
  snd (render sample_render_env sample_plan scenario_B_body "f00d"
         (output sample_plan) 0) = Rendered
  /\ Forall (fun e => renders_page e = false
                      /\ forall msg, e = CPrintBold msg ->
                           msg = browser_message
                                   ("https://submit.cs50.io/check50/" +:+ "f00d"))
       (fst (render sample_render_env sample_plan scenario_B_body "f00d"
               (output sample_plan) 0)).
Proof.
  apply (render_remote sample_render_env sample_plan scenario_B_body "f00d"
           (output sample_plan) 0).
  vm_compute. reflexivity.
Defined.

Lemma render_local_tag_hash_witness :
  render sample_render_env
    (resolved_plan WARNING (dev_args "cs50/problems/2020/x/hello"))
    scenario_B_body "f00d" ["ansi"; "html"] 0
  = render sample_render_env
      (resolved_plan WARNING (dev_args "cs50/problems/2020/x/hello"))
      scenario_B_body "" ["ansi"; "html"] 0.
Proof.
  apply (render_local_tag_hash sample_render_env
           (resolved_plan WARNING (dev_args "cs50/problems/2020/x/hello"))
           scenario_B_body "f00d" "" ["ansi"; "html"] 0).
  vm_compute. reflexivity.
Defined.
